(** * The job-tracking server of UploadDataset.jsx

    A shallow embedding of the Express server in [src/src/UploadDataset.jsx]
    (lines 190-386): the in-memory job store [jobs], the upload handler
    [POST /api/upload], the callback handler [POST /api/callback] and the
    status handler [GET /api/status/:jobId], followed by the properties the
    specification states about them.

    The server is a single-threaded Node process: a handler runs without
    interruption until it returns or reaches an [await].  The upload handler
    has one [await] (the content-store upload), so it is modelled as two
    atomic pieces, [upload] and [upload_resume]; the other handlers are one
    atomic piece each. *)

From stdpp Require Import gmap strings list fin_maps.
From Stdlib Require Import ZArith Ascii String.

Set Warnings "-register-all".
Set Warnings "-clear-no-such-hyp".
Local Open Scope string_scope.

(** ** JavaScript values carried by requests *)

(** What [express.json()] and [express.urlencoded()] can put in [req.body],
    plus [undefined] for a field that is absent.  A number is carried by the
    text [Number.prototype.toString] gives it, which is what a property access
    uses as key; the zero is ["0"]. *)
Inductive value :=
  | VUndefined
  | VNull
  | VBool (b : bool)
  | VNumber (repr : string)
  | VString (s : string)
  | VArray (elems : list value)
  | VObject (props : list (string * value)).

(** ToBoolean. *)
Definition truthy (v : value) : bool :=
  match v with
  | VUndefined | VNull => false
  | VBool b => b
  | VNumber r => negb (String.eqb r "0" || String.eqb r "NaN")
  | VString s => negb (String.eqb s "")
  | VArray _ | VObject _ => true
  end.

(** [a || b]. *)
Definition js_or (a b : value) : value := if truthy a then a else b.

Definition has_own (name : string) (props : list (string * value)) : bool :=
  existsb (fun p => String.eqb (fst p) name) props.

(** ToString, as a property access [jobs[v]] applies it.  [None] stands for
    the TypeError that ToPrimitive throws on an object of the body that
    carries its own (hence not callable) [toString] property.  An array is
    joined with [","], [null] and [undefined] elements giving the empty
    text. *)
Fixpoint to_string (v : value) : option string :=
  match v with
  | VUndefined => Some "undefined"
  | VNull => Some "null"
  | VBool true => Some "true"
  | VBool false => Some "false"
  | VNumber r => Some r
  | VString s => Some s
  | VArray elems =>
      (fix join (l : list value) : option string :=
         match l with
         | [] => Some ""
         | x :: rest =>
             let elem :=
               match x with
               | VUndefined | VNull => Some ""
               | _ => to_string x
               end in
             match rest with
             | [] => elem
             | _ :: _ =>
                 match elem, join rest with
                 | Some s, Some r => Some (s ++ "," ++ r)
                 | _, _ => None
                 end
             end
         end) elems
  | VObject props =>
      if has_own "toString" props then None else Some "[object Object]"
  end.

Definition to_property_key : value -> option string := to_string.

(** ** Records *)

(** [{ display_metric, message }] *)
Module Result.
Record t := mk { display_metric : value; message : value }.
End Result.

(** A job record: [{ id, status, progress, email }], to which the handlers
    later add [message] and [result]. [None] is a property that is not
    there. *)
Module Job.
Record t := mk {
  id : string;
  status : value;
  progress : Z;
  email : value;
  message : option string;
  result : option Result.t
}.
End Job.

(** The body of a callback, as the handler takes it apart: [const { jobId,
    status, display_metric, message } = req.body]. A field the body does not
    have is [VUndefined]. *)
Module Body.
Record t := mk {
  jobId : value;
  status : value;
  display_metric : value;
  message : value
}.
End Body.

(** What the upload handler reads of its request: [req.files?.csv] (the path
    multer gave the first file, [req.files.csv[0].path]) and
    [req.body.email]. *)
Module Request.
Record t := mk { csv : option string; email : value }.
End Request.

(** ** Responses and effects *)

Inductive body :=
  | BMessage (message : string)
      (* { message } *)
  | BStatusMessage (status message : string)
      (* { status, message } *)
  | BJob (j : Job.t)
      (* res.json(job) *)
  | BRuntime (name : string)
      (* res.json(job) where job is a member of Object.prototype *)
  | BUploaded (jobId : string)
      (* { status: "success", message: "Upload complete. ...", jobId } *)
  | BUploadFailed (message : string).
      (* { status: "error", message, detail } *)

Record response := Json { code : Z; payload : body }.

(** The body sent to the workflow webhook. *)
Record trigger := Trigger {
  csvUrl : string;
  trigger_email : value;
  trigger_jobId : string;
  callback_url : string
}.

(** What a run of the upload handler does, in program order. *)
Inductive event :=
  | JobCreated (jobId : string)
  | JobUpdated (jobId : string)
  | FileRead (path : string)
  | StoreUpload (name : string)
  | StorePublicUrl (path : string)
  | FileUnlinked (path : string)
  | Triggered (url : string) (t : trigger)
  | Responded (r : response).

(** ** The state of the process *)

(** An upload handler suspended at [await supabase.storage...upload(...)]:
    the variables its continuation uses. *)
Record frame := Frame {
  frame_jobId : string;
  frame_csvPath : string;
  frame_email : value
}.

Record state := State {
  jobs : gmap string Job.t;     (* the own properties of [jobs] *)
  disk : gset string;           (* the files under [uploads/] *)
  inflight : list frame;        (* upload handlers waiting for the store *)
  tampered : list string;       (* members of Object.prototype written to *)
  env : gmap string string      (* process.env *)
}.

Definition set_jobs (f : gmap string Job.t -> gmap string Job.t) (s : state) : state :=
  State (f (jobs s)) (disk s) (inflight s) (tampered s) (env s).
Definition set_disk (f : gset string -> gset string) (s : state) : state :=
  State (jobs s) (f (disk s)) (inflight s) (tampered s) (env s).
Definition set_inflight (f : list frame -> list frame) (s : state) : state :=
  State (jobs s) (disk s) (f (inflight s)) (tampered s) (env s).
Definition set_tampered (f : list string -> list string) (s : state) : state :=
  State (jobs s) (disk s) (inflight s) (f (tampered s)) (env s).

(** ** Property access on [jobs] *)

(** [const jobs = {}] is an ordinary object: a key that is not one of its own
    properties is looked up in [Object.prototype]. *)
Definition object_prototype_names : list string :=
  [ "constructor"; "__defineGetter__"; "__defineSetter__"; "hasOwnProperty";
    "__lookupGetter__"; "__lookupSetter__"; "isPrototypeOf";
    "propertyIsEnumerable"; "toString"; "valueOf"; "__proto__";
    "toLocaleString" ].

Definition inherited (k : string) : bool :=
  existsb (String.eqb k) object_prototype_names.

Inductive slot :=
  | Own (j : Job.t)     (* a job record *)
  | Inherited           (* a function of Object.prototype, or it itself *)
  | Missing.            (* undefined *)

(** [jobs[k]] *)
Definition jobs_get (s : state) (k : string) : slot :=
  match jobs s !! k with
  | Some j => Own j
  | None => if inherited k then Inherited else Missing
  end.

(** [jobs[k].f1 = v1; jobs[k].f2 = v2; ...] where [jobs[k]] is not
    [undefined].  On a job record the fields are set; on a member of
    [Object.prototype] the writes land on that object of the runtime, which
    [tampered] records. *)
Definition assign (k : string) (f : Job.t -> Job.t) (s : state) : state :=
  match jobs_get s k with
  | Own j => set_jobs (insert k (f j)) s
  | Inherited => set_tampered (cons k) s
  | Missing => s
  end.

(** ** GET /api/status/:jobId *)

Definition status_query (jobId : string) (s : state) : response :=
  match jobs_get s jobId with
  | Missing => Json 404 (BStatusMessage "error" "Job not found")
  | Own j => Json 200 (BJob j)
  | Inherited => Json 200 (BRuntime jobId)
  end.

(** ** POST /api/upload *)

Definition UPLOAD_DIR : string := "uploads".

Definition is_slash (c : ascii) : bool := Ascii.eqb c "/".

Fixpoint drop_slashes (l : list ascii) : list ascii :=
  match l with
  | c :: l' => if is_slash c then drop_slashes l' else l
  | [] => []
  end.

Fixpoint upto_slash (l : list ascii) : list ascii :=
  match l with
  | c :: l' => if is_slash c then [] else c :: upto_slash l'
  | [] => []
  end.

(** [path.basename] (POSIX): the last component, trailing separators
    dropped. *)
Definition basename (p : string) : string :=
  string_of_list_ascii
    (rev (upto_slash (drop_slashes (rev (list_ascii_of_string p))))).

(** [process.env.NAME || fallback] *)
Definition getenv (s : state) (name fallback : string) : string :=
  match env s !! name with
  | Some v => if String.eqb v "" then fallback else v
  | None => fallback
  end.

Definition initial_job (jobId : string) (email : value) : Job.t :=
  Job.mk jobId (VString "uploading") 10 email None None.

Definition set_training (j : Job.t) : Job.t :=
  Job.mk (Job.id j) (VString "training") 40 (Job.email j) (Job.message j)
    (Job.result j).

Definition set_error (msg : string) (j : Job.t) : Job.t :=
  Job.mk (Job.id j) (VString "error") (Job.progress j) (Job.email j)
    (Some msg) (Job.result j).

(** The [catch] block, entered with [error.message = msg]. *)
Definition upload_catch (jobId msg : string) (s : state)
  : state * list event * response :=
  let r := Json 500 (BUploadFailed ("Upload process failed: " ++ msg)) in
  match jobs_get s jobId with
  | Missing => (s, [Responded r], r)
  | _ => (assign jobId (set_error msg) s, [JobUpdated jobId; Responded r], r)
  end.

(** How a run of the handler leaves the event loop: with the response sent,
    or suspended at the [await]. *)
Inductive outcome :=
  | Answered (r : response)
  | Awaiting.

Definition enoent (path : string) : string :=
  "ENOENT: no such file or directory, open '" ++ path ++ "'".

(** The handler up to its [await]. [jobId] is what [uuidv4()] returned and
    [now] the text of [Date.now()]. *)
Definition upload (jobId now : string) (req : Request.t) (s : state)
  : state * list event * outcome :=
  match Request.csv req with
  | None =>
      let r := Json 400 (BMessage "CSV file is required") in
      (s, [Responded r], Answered r)
  | Some csvPath =>
      let email := Request.email req in
      if negb (truthy email) then
        let r := Json 400 (BMessage "Email is required") in
        (s, [Responded r], Answered r)
      else
        let s1 := set_jobs (insert jobId (initial_job jobId email)) s in
        if bool_decide (csvPath ∈ disk s1) then
          let csvFileName := basename csvPath in
          (set_inflight (fun l => (l ++ [Frame jobId csvPath email])%list) s1,
           [JobCreated jobId; FileRead csvPath;
            StoreUpload ("uploads/" ++ now ++ "_" ++ csvFileName)],
           Awaiting)
        else
          let '(s2, evs, r) := upload_catch jobId (enoent csvPath) s1 in
          (s2, JobCreated jobId :: evs, Answered r)
  end.

(** What the awaited store call comes back with. *)
Inductive store_outcome :=
  | Stored (path publicUrl : string)   (* { data: { path }, error: null } *)
  | Refused (message : option string)  (* { data: null, error: { message } } *)
  | Rejected (message : string).       (* the promise rejects *)

Definition csv_error_message (m : option string) : string :=
  match m with
  | Some t => if String.eqb t "" then "Unknown error" else t
  | None => "Unknown error"
  end.

(** The handler from its [await] on. *)
Definition upload_resume (fr : frame) (o : store_outcome) (s : state)
  : state * list event * response :=
  let jobId := frame_jobId fr in
  let csvPath := frame_csvPath fr in
  match o with
  | Refused m =>
      upload_catch jobId
        ("Supabase upload failed: " ++ csv_error_message m) s
  | Rejected m => upload_catch jobId m s
  | Stored path publicUrl =>
      match jobs_get s jobId with
      | Missing =>
          let '(s', evs, r) :=
            upload_catch jobId
              "Cannot set properties of undefined (setting 'status')" s in
          (s', StorePublicUrl path :: evs, r)
      | _ =>
          let s1 := assign jobId set_training s in
          let present := bool_decide (csvPath ∈ disk s1) in
          let s2 := if present then set_disk (fun d => d ∖ {[csvPath]}) s1
                    else s1 in
          let n8nUploadUrl :=
            getenv s2 "N8N_UPLOAD_WEBHOOK"
              "https://n8n-r920.onrender.com/webhook-test/ml-upload" in
          let n8nCallbackUrl :=
            getenv s2 "N8N_CALLBACK_URL"
              "https://auto-ml-train-1.onrender.com/api/callback" in
          let r := Json 200 (BUploaded jobId) in
          (s2,
           ([StorePublicUrl path; JobUpdated jobId]
              ++ (if present then [FileUnlinked csvPath] else [])
              ++ [Triggered n8nUploadUrl
                    (Trigger publicUrl (frame_email fr) jobId n8nCallbackUrl);
                  Responded r])%list,
           r)
      end
  end.

(** ** POST /api/callback *)

Definition set_callback (b : Body.t) (j : Job.t) : Job.t :=
  Job.mk (Job.id j)
    (js_or (Body.status b) (VString "completed"))
    100
    (Job.email j) (Job.message j)
    (Some (Result.mk (Body.display_metric b) (Body.message b))).

Definition callback_ok : response :=
  Json 200 (BStatusMessage "success" "Callback processed").

Definition callback_failed : response :=
  Json 500 (BStatusMessage "error" "Failed to process callback").

Definition callback (b : Body.t) (s : state) : state * response :=
  let jobId := Body.jobId b in
  if truthy jobId then
    match to_property_key jobId with
    | None => (s, callback_failed)
    | Some k =>
        match jobs_get s k with
        | Missing => (s, callback_ok)
        | _ => (assign k (set_callback b) s, callback_ok)
        end
    end
  else (s, callback_ok).

(** ** Job identifiers *)

Definition is_hex (c : ascii) : bool :=
  let n := nat_of_ascii c in
  ((48 <=? n) && (n <=? 57) || (97 <=? n) && (n <=? 102))%nat.

Definition is_dash_position (i : nat) : bool :=
  ((i =? 8) || (i =? 13) || (i =? 18) || (i =? 23))%nat.

Fixpoint uuid_chars (i : nat) (cs : list ascii) : bool :=
  match cs with
  | [] => true
  | c :: cs' =>
      (if is_dash_position i then Ascii.eqb c "-" else is_hex c)
      && uuid_chars (S i) cs'
  end.

(** The texts [uuidv4()] returns: 36 characters, lower-case hexadecimal
    digits in groups of 8-4-4-4-12 separated by dashes. *)
Definition uuid_shaped (s : string) : bool :=
  (String.length s =? 36)%nat && uuid_chars 0 (list_ascii_of_string s).

(** ** Runs of the server *)

(** What the event loop dispatches. [Arrive] is multer's disk storage writing
    the file of an upload to [UPLOAD_DIR/<originalname>]; [Upload] starts the
    upload handler; [Settle i o] resumes the [i]-th suspended upload handler
    with the outcome [o] of its store call. *)
Inductive label :=
  | Arrive (originalname : string)
  | Upload (jobId now : string) (req : Request.t)
  | Settle (i : nat) (o : store_outcome)
  | Callback (b : Body.t)
  | Status (jobId : string).

Definition exec (l : label) (s : state) : state :=
  match l with
  | Arrive name => set_disk (fun d => {[UPLOAD_DIR ++ "/" ++ name]} ∪ d) s
  | Upload jobId now req => (upload jobId now req s).1.1
  | Settle i o =>
      match inflight s !! i with
      | Some fr => (upload_resume fr o (set_inflight (delete i) s)).1.1
      | None => s
      end
  | Callback b => (callback b s).1
  | Status _ => s
  end.

(** The runs the development follows: [uuidv4()] returns a text of the shape
    above that names no job yet, only a suspended handler is resumed, and no
    object of the runtime has been written to (after such a write, what
    [Object.prototype] holds is no longer what [jobs_get] assumes). *)
Definition admissible (s : state) (l : label) : bool :=
  match tampered s with
  | [] =>
      match l with
      | Upload jobId _ _ =>
          uuid_shaped jobId && negb (bool_decide (is_Some (jobs s !! jobId)))
      | Settle i _ => bool_decide (is_Some (inflight s !! i))
      | _ => true
      end
  | _ :: _ => false
  end.

Fixpoint run (ls : list label) (s : state) : option state :=
  match ls with
  | [] => Some s
  | l :: ls' => if admissible s l then run ls' (exec l s) else None
  end.

(** The process as it starts: [jobs = {}], no handler suspended. *)
Definition boot (e : gmap string string) (d : gset string) : state :=
  State ∅ d [] [] e.

(** A callback of the run reached the record under key [k]. *)
Definition reaches (k : string) (l : label) (s : state) : bool :=
  match l with
  | Callback b =>
      truthy (Body.jobId b)
      && bool_decide (to_property_key (Body.jobId b) = Some k)
      && bool_decide (is_Some (jobs s !! k))
  | _ => false
  end.

Fixpoint reached (k : string) (ls : list label) (s : state) : bool :=
  match ls with
  | [] => false
  | l :: ls' => reaches k l s || reached k ls' (exec l s)
  end.

(** ** Vocabulary of the specification *)

(** An upload the handler accepts: the file is there and the address is
    truthy. *)
Definition valid (req : Request.t) : bool :=
  bool_decide (is_Some (Request.csv req)) && truthy (Request.email req).

(** The statuses the specification documents. *)
Definition documented (v : value) : bool :=
  match v with
  | VString t =>
      String.eqb t "uploading" || String.eqb t "training"
      || String.eqb t "completed" || String.eqb t "error"
  | _ => false
  end.

Definition terminal (v : value) : bool :=
  match v with
  | VString t => String.eqb t "completed" || String.eqb t "error"
  | _ => false
  end.

(** The callback reports success: the status it stores is ["completed"]. *)
Definition success (b : Body.t) : bool :=
  match js_or (Body.status b) (VString "completed") with
  | VString t => String.eqb t "completed"
  | _ => false
  end.

Definition reaches_with_success (k : string) (l : label) (s : state) : bool :=
  reaches k l s && match l with Callback b => success b | _ => false end.

Fixpoint reached_with_success (k : string) (ls : list label) (s : state)
  : bool :=
  match ls with
  | [] => false
  | l :: ls' =>
      reaches_with_success k l s || reached_with_success k ls' (exec l s)
  end.

(** The job id and the response, when the step sends the response of an
    upload that passed validation. *)
Definition upload_response (l : label) (s : state)
  : option (string * response) :=
  match l with
  | Upload jobId now req =>
      match (upload jobId now req s).2 with
      | Answered r => if valid req then Some (jobId, r) else None
      | Awaiting => None
      end
  | Settle i o =>
      match inflight s !! i with
      | Some fr =>
          Some (frame_jobId fr,
                (upload_resume fr o (set_inflight (delete i) s)).2)
      | None => None
      end
  | _ => None
  end.

(** Correct operation of the workflow engine: it learns a job id from the
    trigger, which the upload handler sends after the store call has
    settled, so no callback names a job whose upload is still suspended. *)
Definition causal (s : state) (l : label) : bool :=
  match l with
  | Callback b =>
      match to_property_key (Body.jobId b) with
      | Some k =>
          negb (truthy (Body.jobId b)
                && bool_decide (k ∈ frame_jobId <$> inflight s))
      | None => true
      end
  | _ => true
  end.

Fixpoint proper_run (ls : list label) (s : state) : option state :=
  match ls with
  | [] => Some s
  | l :: ls' =>
      if admissible s l && causal s l then proper_run ls' (exec l s)
      else None
  end.

(** What one step does to the record under key [k]: nothing, or what one
    piece of a handler writes (the initial record, the initial record
    followed by the [catch] block, the move to ["training"], the [catch]
    block, the callback). *)
Inductive effect_on (s : state) (l : label) (k : string)
  : option Job.t -> Prop :=
  | effect_none :
      effect_on s l k (jobs s !! k)
  | effect_created now req path :
      l = Upload k now req ->
      Request.csv req = Some path ->
      truthy (Request.email req) = true ->
      jobs s !! k = None ->
      path ∈ disk s ->
      effect_on s l k (Some (initial_job k (Request.email req)))
  | effect_unreadable now req path :
      l = Upload k now req ->
      Request.csv req = Some path ->
      truthy (Request.email req) = true ->
      jobs s !! k = None ->
      path ∉ disk s ->
      effect_on s l k
        (Some (set_error (enoent path) (initial_job k (Request.email req))))
  | effect_training i fr path url j :
      l = Settle i (Stored path url) ->
      inflight s !! i = Some fr ->
      frame_jobId fr = k ->
      jobs s !! k = Some j ->
      effect_on s l k (Some (set_training j))
  | effect_error i o fr msg j :
      l = Settle i o ->
      (forall path url, o <> Stored path url) ->
      inflight s !! i = Some fr ->
      frame_jobId fr = k ->
      jobs s !! k = Some j ->
      effect_on s l k (Some (set_error msg j))
  | effect_callback b j :
      l = Callback b ->
      truthy (Body.jobId b) = true ->
      to_property_key (Body.jobId b) = Some k ->
      jobs s !! k = Some j ->
      effect_on s l k (Some (set_callback b j)).

(** What holds of every state of a run under correct operation: a suspended
    upload handler belongs to a job that is still in ["uploading"] at
    progress 10, no two of them belong to the same job, and progress is one
    of the three values the source assigns. *)
Record consistent (s : state) : Prop := Consistent {
  consistent_frames :
    forall fr, fr ∈ inflight s ->
    exists j, jobs s !! frame_jobId fr = Some j
              /\ Job.status j = VString "uploading"
              /\ Job.progress j = 10%Z;
  consistent_nodup : NoDup (frame_jobId <$> inflight s);
  consistent_progress :
    forall k j, jobs s !! k = Some j ->
    Job.progress j = 10%Z \/ Job.progress j = 40%Z \/ Job.progress j = 100%Z
}.

(** ** Sample requests *)

Definition demo_id : string := "3f2b8c1e-5a4d-4e6f-9a7b-1c2d3e4f5a6b".

Definition demo_req : Request.t :=
  Request.mk (Some "uploads/data.csv") (VString "ada@example.org").

(** An upload that goes through. *)
Definition demo_run : list label :=
  [ Arrive "data.csv"; Upload demo_id "1700000000000" demo_req;
    Settle 0 (Stored "uploads/1700000000000_data.csv" "https://store/x.csv") ].

(** The job it leaves, handed to the workflow engine. *)
Definition demo_job : Job.t :=
  Job.mk demo_id (VString "training") 40 (VString "ada@example.org")
    None None.

Definition demo_state : state := State {[ demo_id := demo_job ]} ∅ [] [] ∅.

(** An upload whose file the content store refuses. *)
Definition failed_store_run : list label :=
  [ Arrive "data.csv"; Upload demo_id "1700000000000" demo_req;
    Settle 0 (Refused (Some "Bucket not found")) ].

(** The workflow engine reports success, or failure, for [demo_id]. *)
Definition demo_completed : Body.t :=
  Body.mk (VString demo_id) (VString "completed") (VNumber "0.92")
    (VString "done").

Definition demo_failed : Body.t :=
  Body.mk (VString demo_id) (VString "error") VUndefined
    (VString "training failed").

(** ** Further vocabulary *)

(** The job id a step creates a record for: the upload handler, started on a
    request that passes its validation. *)
Definition created (l : label) : option string :=
  match l with
  | Upload jobId _ req => if valid req then Some jobId else None
  | _ => None
  end.

Definition accepted_uploads (ls : list label) : nat :=
  List.length (filter (fun l => is_Some (created l)) ls).

(** The calls to the workflow webhook among the effects of a handler. *)
Fixpoint triggers (evs : list event) : list (string * trigger) :=
  match evs with
  | [] => []
  | Triggered url t :: evs' => (url, t) :: triggers evs'
  | _ :: evs' => triggers evs'
  end.

(** The calls to the content store among the effects of a handler. *)
Definition is_store_call (ev : event) : bool :=
  match ev with
  | StoreUpload _ | StorePublicUrl _ => true
  | _ => false
  end.

(** The shapes a job record takes: created and waiting for the store, failed
    before any callback, handed to the workflow engine, or written by a
    callback. *)
Definition shaped (k : string) (j : Job.t) : Prop :=
  Job.id j = k
  /\ truthy (Job.email j) = true
  /\ ((Job.progress j = 10%Z /\ Job.result j = None
       /\ ((Job.status j = VString "uploading" /\ Job.message j = None)
           \/ (Job.status j = VString "error" /\ is_Some (Job.message j))))
      \/ (Job.progress j = 40%Z /\ Job.status j = VString "training"
          /\ Job.message j = None)
      \/ (Job.progress j = 100%Z /\ is_Some (Job.result j))).

(** What holds of every state of a run, correct operation or not. *)
Record wellformed (s : state) : Prop := Wellformed {
  wellformed_jobs : forall k j, jobs s !! k = Some j -> shaped k j;
  wellformed_frames :
    forall fr, fr ∈ inflight s ->
    exists j, jobs s !! frame_jobId fr = Some j
              /\ Job.message j = None
              /\ ((Job.progress j = 10%Z
                   /\ Job.status j = VString "uploading")
                  \/ Job.progress j = 100%Z);
  wellformed_nodup : NoDup (frame_jobId <$> inflight s)
}.

(** A file name without a separator. *)
Definition no_slash (name : string) : bool :=
  forallb (fun c => negb (is_slash c)) (list_ascii_of_string name).

(** A value of a body that is not an array or an object. *)
Definition scalar (v : value) : bool :=
  match v with
  | VArray _ | VObject _ => false
  | _ => true
  end.

Definition n8nUploadUrl (s : state) : string :=
  getenv s "N8N_UPLOAD_WEBHOOK"
    "https://n8n-r920.onrender.com/webhook-test/ml-upload".

Definition n8nCallbackUrl (s : state) : string :=
  getenv s "N8N_CALLBACK_URL"
    "https://auto-ml-train-1.onrender.com/api/callback".

(** ** The upload form: the React component [UploadDataset] *)

(** [{ type, display_metric, message }], the object handed to [setResult]. *)
Module Shown.
Record t := mk { type : string; display_metric : string; message : string }.
End Shown.

(** The state variables of the component. [csv] holds the [File] selected,
    of which the component uses the name only. *)
Module UI.
Record t := mk {
  csv : option string;
  email : string;
  status : string;
  progress : Z;
  jobId : option string;
  result : option Shown.t;
  errorMsg : value
}.
End UI.

(** The values the [useState] calls start from. *)
Definition UploadDataset : UI.t :=
  UI.mk None "" "idle" 0 None None (VString "").

(** [s.endsWith(suffix)] *)
Definition endsWith (s suffix : string) : bool :=
  let n := String.length s in
  let m := String.length suffix in
  (m <=? n)%nat && String.eqb (substring (n - m) m s) suffix.

(** [handleFileChange], on the list [e.target.files]. The second component
    is the text of the [alert], when there is one (the input is then
    cleared). *)
Definition handleFileChange (files : list string) (u : UI.t)
  : UI.t * option string :=
  match files with
  | name :: _ =>
      if endsWith name ".csv" then
        (UI.mk (Some name) (UI.email u) (UI.status u) (UI.progress u)
           (UI.jobId u) (UI.result u) (VString ""),
         None)
      else (u, Some "Please upload a valid CSV file")
  | [] => (u, Some "Please upload a valid CSV file")
  end.

(** [onChange={(e) => setEmail(e.target.value)}] *)
Definition setEmail (v : string) (u : UI.t) : UI.t :=
  UI.mk (UI.csv u) v (UI.status u) (UI.progress u) (UI.jobId u)
    (UI.result u) (UI.errorMsg u).

(** The form data posted to [/api/upload]. *)
Record formData := FormData { form_csv : string; form_email : string }.

(** [handleSubmit] up to its [await]: the state it sets and the request it
    posts, if any. *)
Definition handleSubmit (u : UI.t) : UI.t * option formData :=
  match UI.csv u with
  | None => (u, None)
  | Some file =>
      if String.eqb (UI.email u) "" then (u, None)
      else
        (UI.mk (Some file) (UI.email u) "uploading" 30 (UI.jobId u) None
           (VString ""),
         Some (FormData file (UI.email u)))
  end.

(** How the awaited [axios.post] settles: fulfilled, or rejected with an
    error of which the handler reads [err.response?.data?.message] and
    [err.message]. *)
Inductive axios_result :=
  | Fulfilled
  | Failed (response_message : value) (message : string).

Definition async_success : Shown.t :=
  Shown.mk "async_success" "Processing"
    "Your model is training in the background.".

(** [handleSubmit] from its [await] on. *)
Definition handleSubmit_resume (r : axios_result) (u : UI.t) : UI.t :=
  match r with
  | Fulfilled =>
      UI.mk (UI.csv u) (UI.email u) "completed" 100 (UI.jobId u)
        (Some async_success) (UI.errorMsg u)
  | Failed response_message message =>
      UI.mk (UI.csv u) (UI.email u) "error" (UI.progress u) (UI.jobId u)
        (UI.result u) (js_or response_message (VString message))
  end.

(** The [onClick] of "Train Another Model". *)
Definition trainAnother (u : UI.t) : UI.t :=
  UI.mk None "" "idle" 0 (UI.jobId u) None (UI.errorMsg u).

(** What the component renders: the form, or the status container, and the
    result card. *)
Definition shows_form (u : UI.t) : bool :=
  String.eqb (UI.status u) "idle" || String.eqb (UI.status u) "error".

Definition shows_result (u : UI.t) : bool :=
  String.eqb (UI.status u) "completed"
  && match UI.result u with Some _ => true | None => false end.

Definition submit_disabled (u : UI.t) : bool :=
  match UI.csv u with
  | None => true
  | Some _ => String.eqb (UI.email u) ""
  end.

(** The text of the status container. *)
Definition status_text (u : UI.t) : string :=
  if String.eqb (UI.status u) "uploading" then "Uploading Stream..."
  else if String.eqb (UI.status u) "training" then
    "Processing on Cloud GPU..."
  else "Training Complete!".

(** What can happen to the component: the events of the elements it
    renders, and the settling of a request it posted. The second component
    of the state counts the [handleSubmit] calls suspended at their
    [await]. *)
Inductive ui_event :=
  | FileChange (files : list string)
  | EmailChange (v : string)
  | Submit
  | Settled (r : axios_result)
  | TrainAnother.

Definition ui_exec (ev : ui_event) (p : UI.t * nat) : option (UI.t * nat) :=
  let '(u, n) := p in
  match ev with
  | FileChange files =>
      if shows_form u then Some ((handleFileChange files u).1, n) else None
  | EmailChange v =>
      if shows_form u then Some (setEmail v u, n) else None
  | Submit =>
      if shows_form u then
        match handleSubmit u with
        | (u', Some _) => Some (u', S n)
        | (u', None) => Some (u', n)
        end
      else None
  | Settled r =>
      match n with
      | S n' => Some (handleSubmit_resume r u, n')
      | O => None
      end
  | TrainAnother =>
      if shows_result u then Some (trainAnother u, n) else None
  end.

Fixpoint ui_run (evs : list ui_event) (p : UI.t * nat)
  : option (UI.t * nat) :=
  match evs with
  | [] => Some p
  | ev :: evs' =>
      match ui_exec ev p with
      | Some p' => ui_run evs' p'
      | None => None
      end
  end.

(** What holds of the component in every state it reaches. *)
Definition ui_consistent (p : UI.t * nat) : Prop :=
  let '(u, n) := p in
  UI.jobId u = None
  /\ (forall name, UI.csv u = Some name -> endsWith name ".csv" = true)
  /\ ((UI.status u = "idle" /\ UI.progress u = 0%Z /\ UI.result u = None
       /\ n = 0%nat)
      \/ (UI.status u = "uploading" /\ UI.progress u = 30%Z
          /\ UI.result u = None /\ n = 1%nat
          /\ is_Some (UI.csv u) /\ UI.email u <> "")
      \/ (UI.status u = "completed" /\ UI.progress u = 100%Z
          /\ UI.result u = Some async_success /\ n = 0%nat)
      \/ (UI.status u = "error" /\ UI.progress u = 30%Z
          /\ UI.result u = None /\ n = 0%nat)).

(** The request the server sees for a form, once multer has stored the
    file under its original name. *)
Definition client_request (f : formData) : Request.t :=
  Request.mk (Some (UPLOAD_DIR ++ "/" ++ form_csv f))
    (VString (form_email f)).

(** [data.message] of a response body. *)
Definition body_message (b : body) : value :=
  match b with
  | BMessage m | BStatusMessage _ m | BUploadFailed m => VString m
  | BUploaded _ => VString "Upload complete. Results will be emailed."
  | BJob j =>
      match Job.message j with Some m => VString m | None => VUndefined end
  | BRuntime _ => VUndefined
  end.

(** How axios settles on a response of the server: fulfilled on a 2xx
    status, rejected otherwise, with [message] the text axios gives the
    error. *)
Definition axios_of (r : response) (message : string) : axios_result :=
  if ((200 <=? code r) && (code r <? 300))%Z then Fulfilled
  else Failed (body_message (payload r)) message.

(** ** Basic facts about the handlers *)

Lemma jobs_get_own (s : state) (k : string) (j : Job.t) :
  jobs s !! k = Some j -> jobs_get s k = Own j.
Proof. intros H. unfold jobs_get. by rewrite H. Qed.

Lemma jobs_get_missing (s : state) (k : string) :
  jobs s !! k = None -> inherited k = false -> jobs_get s k = Missing.
Proof. intros H1 H2. unfold jobs_get. by rewrite H1, H2. Qed.

Lemma assign_own (s : state) (k : string) (j : Job.t) (f : Job.t -> Job.t) :
  jobs s !! k = Some j -> assign k f s = set_jobs (insert k (f j)) s.
Proof. intros H. unfold assign. by rewrite (jobs_get_own _ _ _ H). Qed.

Lemma uuid_shaped_length (k : string) :
  uuid_shaped k = true -> String.length k = 36%nat.
Proof.
  unfold uuid_shaped. intros H. apply andb_prop in H as [H _].
  by apply Nat.eqb_eq.
Qed.

(** No text [uuidv4()] returns names a member of [Object.prototype]. *)
Lemma uuid_shaped_not_inherited (k : string) :
  uuid_shaped k = true -> inherited k = false.
Proof.
  intros H. apply uuid_shaped_length in H.
  destruct (inherited k) eqn:E; [|done].
  unfold inherited in E. apply existsb_exists in E as (n & Hn & Heq).
  apply String.eqb_eq in Heq. subst n.
  unfold object_prototype_names in Hn. simpl in Hn.
  repeat (destruct Hn as [<-|Hn]; [discriminate H|]). destruct Hn.
Qed.

(** A callback that names a job record rewrites that record and nothing
    else. *)
Lemma callback_own (s : state) (b : Body.t) (k : string) (j : Job.t) :
  truthy (Body.jobId b) = true ->
  to_property_key (Body.jobId b) = Some k ->
  jobs s !! k = Some j ->
  callback b s = (set_jobs (insert k (set_callback b j)) s, callback_ok).
Proof.
  intros Ht Hk Hj. unfold callback. rewrite Ht, Hk.
  rewrite (jobs_get_own _ _ _ Hj). by rewrite (assign_own _ _ _ _ Hj).
Qed.

(** A callback that names neither a job record nor a member of
    [Object.prototype] changes nothing and is answered with success. *)
Lemma callback_unknown (s : state) (b : Body.t) (k : string) :
  to_property_key (Body.jobId b) = Some k ->
  jobs s !! k = None -> inherited k = false ->
  callback b s = (s, callback_ok).
Proof.
  intros Hk Hj Hi. unfold callback. rewrite Hk.
  rewrite (jobs_get_missing _ _ Hj Hi). by destruct (truthy _).
Qed.

Lemma status_query_unknown (s : state) (k : string) :
  jobs s !! k = None -> inherited k = false ->
  status_query k s = Json 404 (BStatusMessage "error" "Job not found").
Proof.
  intros Hj Hi. unfold status_query. by rewrite (jobs_get_missing _ _ Hj Hi).
Qed.

Lemma set_callback_twice (b : Body.t) (j : Job.t) :
  set_callback b (set_callback b j) = set_callback b j.
Proof. reflexivity. Qed.

Lemma upload_catch_jobs (jobId msg : string) (s : state) (k : string) :
  jobs (upload_catch jobId msg s).1.1 !! k
  = if decide (jobId = k) then set_error msg <$> jobs s !! k
    else jobs s !! k.
Proof.
  unfold upload_catch, assign, jobs_get.
  destruct (jobs s !! jobId) as [j|] eqn:Hj.
  - simpl. case_decide as Hk.
    + subst k. by rewrite lookup_insert_eq, Hj.
    + by rewrite lookup_insert_ne.
  - destruct (inherited jobId); simpl; case_decide as Hk; try done;
      subst k; by rewrite Hj.
Qed.

Lemma admissible_upload (s : state) (jobId now : string) (req : Request.t) :
  admissible s (Upload jobId now req) = true ->
  uuid_shaped jobId = true /\ jobs s !! jobId = None /\ tampered s = [].
Proof.
  unfold admissible. destruct (tampered s); [|done].
  intros H. apply andb_prop in H as [H1 H2]. split; [done|]. split; [|done].
  apply negb_true_iff, bool_decide_eq_false in H2.
  destruct (jobs s !! jobId) eqn:E; [|done]. destruct H2. by eexists.
Qed.

Lemma admissible_settle (s : state) (i : nat) (o : store_outcome) :
  admissible s (Settle i o) = true ->
  exists fr, inflight s !! i = Some fr.
Proof.
  unfold admissible. destruct (tampered s); [|done].
  intros H. apply bool_decide_eq_true in H as [fr H]. by exists fr.
Qed.

Lemma admissible_tampered (s : state) (l : label) :
  admissible s l = true -> tampered s = [].
Proof. unfold admissible. by destruct (tampered s). Qed.

(** The case analysis of the handlers, done once: the record under any key
    after a step. *)
Lemma exec_effect (s : state) (l : label) (k : string) :
  admissible s l = true -> effect_on s l k (jobs (exec l s) !! k).
Proof.
  intros Ha. destruct l as [name | jobId now req | i o | b | q]; simpl.
  - apply effect_none.
  - apply admissible_upload in Ha as (_ & Hfresh & _).
    unfold upload. destruct (Request.csv req) as [path|] eqn:Hcsv;
      [|apply effect_none].
    destruct (truthy (Request.email req)) eqn:Hmail; simpl;
      [|apply effect_none].
    destruct (bool_decide (path ∈ disk s)) eqn:Hdisk; simpl.
    + apply bool_decide_eq_true in Hdisk.
      destruct (decide (jobId = k)) as [->|Hne].
      * rewrite lookup_insert_eq. by eapply effect_created.
      * rewrite lookup_insert_ne by done. apply effect_none.
    + apply bool_decide_eq_false in Hdisk.
      match goal with
      | |- context [upload_catch ?a ?m ?t] =>
          pose proof (upload_catch_jobs a m t k) as Hc;
          destruct (upload_catch a m t) as [[s2 evs] r]
      end.
      simpl in *. rewrite Hc. case_decide as Hk.
      * subst k. rewrite lookup_insert_eq. simpl.
        by eapply effect_unreadable.
      * rewrite lookup_insert_ne by done. apply effect_none.
  - destruct (admissible_settle _ _ _ Ha) as [fr Hfr]. rewrite Hfr.
    unfold upload_resume.
    destruct o as [path url | m | m].
    + unfold jobs_get, assign, jobs_get. simpl.
      destruct (jobs s !! frame_jobId fr) as [j|] eqn:Hj.
      * destruct (bool_decide _); simpl;
          (destruct (decide (frame_jobId fr = k)) as [<-|Hne];
           [ rewrite lookup_insert_eq; by eapply effect_training
           | rewrite lookup_insert_ne by done; apply effect_none ]).
      * destruct (inherited (frame_jobId fr)) eqn:Hi.
        -- destruct (bool_decide _); simpl; apply effect_none.
        -- unfold upload_catch, jobs_get. simpl. rewrite Hj, Hi. simpl.
           apply effect_none.
    + rewrite upload_catch_jobs. simpl. case_decide as Hk; [|apply effect_none].
      destruct (jobs s !! k) as [j|] eqn:Hj; simpl.
      * eapply effect_error; eauto; congruence.
      * rewrite <- Hj. apply effect_none.
    + rewrite upload_catch_jobs. simpl. case_decide as Hk; [|apply effect_none].
      destruct (jobs s !! k) as [j|] eqn:Hj; simpl.
      * eapply effect_error; eauto; congruence.
      * rewrite <- Hj. apply effect_none.
  - unfold callback. destruct (truthy (Body.jobId b)) eqn:Ht;
      [|apply effect_none].
    destruct (to_property_key (Body.jobId b)) as [k'|] eqn:Hk;
      [|apply effect_none].
    unfold jobs_get, assign, jobs_get.
    destruct (jobs s !! k') as [j|] eqn:Hj; simpl.
    + destruct (decide (k' = k)) as [->|Hne].
      * rewrite lookup_insert_eq. by eapply effect_callback.
      * rewrite lookup_insert_ne by done. apply effect_none.
    + destruct (inherited k'); simpl; apply effect_none.
  - apply effect_none.
Qed.

(** Case analysis on what the step [l] did to the record [j'] found under
    [k] afterwards ([Hj' : jobs (exec l s) !! k = Some j']). *)
Ltac effect_cases s l k Ha Hj' :=
  let He := fresh "He" in
  pose proof (exec_effect s l k Ha) as He; rewrite Hj' in He;
  match type of He with
  | effect_on _ _ _ (Some ?j') =>
      remember (Some j') as oj eqn:Hoj;
      destruct He
        as [ | now req path Hl Hcsv Hm Hnone Hdisk
             | now req path Hl Hcsv Hm Hnone Hdisk
             | i fr0 path url j0 Hl Hi Hk Hj0
             | i o fr0 msg j0 Hl Ho Hi Hk Hj0
             | b j0 Hl Ht Hk Hj0 ]
  end.

(** ** The callback handler *)

(** C7 (as amended). A callback whose job id names a registry entry sets the
    job's status to the reported value when that value is truthy and to
    ["completed"] otherwise (so in particular when the status is absent), sets
    progress to 100 and attaches the result built from [display_metric] and
    [message]; the other fields stay, and the caller is answered with
    success. *)
Theorem callback_sets_record (s : state) (b : Body.t) (k : string) (j : Job.t) :
  truthy (Body.jobId b) = true ->
  to_property_key (Body.jobId b) = Some k ->
  jobs s !! k = Some j ->
  exists j',
    jobs (callback b s).1 !! k = Some j'
    /\ Job.status j'
       = (if truthy (Body.status b) then Body.status b
          else VString "completed")
    /\ (Body.status b = VUndefined -> Job.status j' = VString "completed")
    /\ Job.progress j' = 100%Z
    /\ Job.result j'
       = Some (Result.mk (Body.display_metric b) (Body.message b))
    /\ Job.id j' = Job.id j /\ Job.email j' = Job.email j
    /\ Job.message j' = Job.message j
    /\ (callback b s).2 = callback_ok.
Proof.
  intros Ht Hk Hj. exists (set_callback b j).
  rewrite (callback_own _ _ _ _ Ht Hk Hj). simpl.
  rewrite lookup_insert_eq. unfold js_or.
  repeat split; try done. by intros ->.
Qed.

Lemma callback_sets_record_witness :
  exists j',
    jobs (callback (Body.mk (VString demo_id) VUndefined (VNumber "0.92")
                      (VString "done")) demo_state).1 !! demo_id = Some j'
    /\ Job.status j' = VString "completed"
    /\ Job.progress j' = 100%Z
    /\ Job.result j' = Some (Result.mk (VNumber "0.92") (VString "done")).
Proof.
  destruct (callback_sets_record demo_state
              (Body.mk (VString demo_id) VUndefined (VNumber "0.92")
                 (VString "done")) demo_id demo_job)
    as (j' & H1 & H2 & _ & H4 & H5 & _);
    [reflexivity | reflexivity | reflexivity |].
  exists j'. repeat split; assumption.
Defined.

(** C7 as the specification words it fails on a status that is present but
    empty: the record does not take the reported value, it takes
    ["completed"]. *)
Lemma callback_empty_status_defaults :
  let b := Body.mk (VString demo_id) (VString "") VUndefined VUndefined in
  Body.status b <> VUndefined
  /\ exists j',
       jobs (callback b demo_state).1 !! demo_id = Some j'
       /\ Job.status j' = VString "completed"
       /\ Job.status j' <> Body.status b.
Proof.
  simpl. split; [discriminate|].
  eexists. split; [reflexivity|]. split; [reflexivity | discriminate].
Qed.

(** C6. Applying the same callback twice to a job of the registry leaves the
    process in the state one application leaves it in, and both are answered
    with success. *)
Theorem callback_idempotent (s : state) (b : Body.t) (k : string) (j : Job.t) :
  truthy (Body.jobId b) = true ->
  to_property_key (Body.jobId b) = Some k ->
  jobs s !! k = Some j ->
  callback b (callback b s).1 = callback b s
  /\ (callback b s).2 = callback_ok.
Proof.
  intros Ht Hk Hj. rewrite (callback_own _ _ _ _ Ht Hk Hj). simpl.
  split; [|done].
  rewrite (callback_own _ b k (set_callback b j) Ht Hk)
    by (simpl; apply lookup_insert_eq).
  unfold set_jobs. simpl. by rewrite insert_insert_eq.
Qed.

Lemma callback_idempotent_witness :
  let b := Body.mk (VString demo_id) (VString "completed") (VNumber "0.92")
             (VString "done") in
  callback b (callback b demo_state).1 = callback b demo_state
  /\ (callback b demo_state).2 = callback_ok.
Proof.
  exact (callback_idempotent demo_state
           (Body.mk (VString demo_id) (VString "completed") (VNumber "0.92")
              (VString "done")) demo_id demo_job eq_refl eq_refl eq_refl).
Defined.

(** C10. A callback whose job id names a registry entry and whose status is a
    non-empty text stores exactly that text, whatever it is; a record of a
    run can therefore hold a status the specification does not document. *)
Theorem callback_status_unvalidated
  (s : state) (b : Body.t) (k : string) (j : Job.t) (t : string) :
  truthy (Body.jobId b) = true ->
  to_property_key (Body.jobId b) = Some k ->
  jobs s !! k = Some j ->
  Body.status b = VString t ->
  t <> "" ->
  (exists j', jobs (callback b s).1 !! k = Some j'
              /\ Job.status j' = VString t)
  /\ (exists ls s' k' j',
        run ls (boot ∅ ∅) = Some s'
        /\ jobs s' !! k' = Some j'
        /\ documented (Job.status j') = false).
Proof.
  intros Ht Hk Hj Hs Hne. split.
  - exists (set_callback b j). rewrite (callback_own _ _ _ _ Ht Hk Hj). simpl.
    rewrite lookup_insert_eq. split; [done|].
    unfold js_or. rewrite Hs. simpl.
    destruct (String.eqb_spec t ""); [contradiction | reflexivity].
  - exists (demo_run
              ++ [Callback (Body.mk (VString demo_id) (VString "banana")
                              VUndefined VUndefined)])%list.
    eexists. exists demo_id. eexists.
    split; [vm_compute; reflexivity|]. split; reflexivity.
Qed.

Lemma callback_status_unvalidated_witness :
  exists j',
    jobs (callback (Body.mk (VString demo_id) (VString "banana") VUndefined
                      VUndefined) demo_state).1 !! demo_id = Some j'
    /\ Job.status j' = VString "banana"
    /\ documented (Job.status j') = false.
Proof.
  destruct (callback_status_unvalidated demo_state
              (Body.mk (VString demo_id) (VString "banana") VUndefined
                 VUndefined) demo_id demo_job "banana")
    as [(j' & H1 & H2) _];
    [reflexivity | reflexivity | reflexivity | reflexivity | discriminate |].
  exists j'. split; [assumption|]. split; [assumption|].
  rewrite H2. reflexivity.
Defined.

(** ** The upload handler *)

(** C8. An upload without the file, or without a truthy address, is answered
    with status 400 and leaves the process as it was: no job record is
    created. *)
Theorem upload_rejects_invalid
  (jobId now : string) (req : Request.t) (s : state) :
  Request.csv req = None \/ truthy (Request.email req) = false ->
  exists r,
    upload jobId now req s = (s, [Responded r], Answered r)
    /\ code r = 400%Z
    /\ jobs (upload jobId now req s).1.1 = jobs s.
Proof.
  intros H. unfold upload.
  destruct (Request.csv req) as [path|] eqn:Hcsv.
  - destruct H as [H|H]; [discriminate|]. rewrite H. simpl.
    eexists. split; [reflexivity|]. split; reflexivity.
  - eexists. split; [reflexivity|]. split; reflexivity.
Qed.

Lemma upload_rejects_invalid_witness :
  exists r,
    upload demo_id "1700000000000"
      (Request.mk (Some "uploads/data.csv") VUndefined) (boot ∅ ∅)
    = (boot ∅ ∅, [Responded r], Answered r)
    /\ code r = 400%Z.
Proof.
  destruct (upload_rejects_invalid demo_id "1700000000000"
              (Request.mk (Some "uploads/data.csv") VUndefined) (boot ∅ ∅))
    as (r & H1 & H2 & _); [right; reflexivity|].
  exists r. split; assumption.
Defined.

Lemma upload_catch_disk (jobId msg : string) (s : state) :
  disk (upload_catch jobId msg s).1.1 = disk s.
Proof.
  unfold upload_catch, assign. by destruct (jobs_get s jobId).
Qed.

(** When the store call fails, the continuation of the upload handler leaves
    the files under [uploads/] as they are. *)
Lemma upload_resume_failure_disk (fr : frame) (o : store_outcome) (s : state) :
  (forall path url, o <> Stored path url) ->
  disk (upload_resume fr o s).1.1 = disk s.
Proof.
  intros H. destruct o as [path url|m|m]; simpl.
  - destruct (H path url eq_refl).
  - apply upload_catch_disk.
  - apply upload_catch_disk.
Qed.


(** C3, at the input where the code departs from it. The file of an upload
    is written to [uploads/data.csv]; the content store refuses it; the
    handler answers with status 500, the job is in ["error"], and the local
    copy is still there. *)
Theorem failed_store_keeps_local_copy :
  exists s j,
    run failed_store_run (boot ∅ ∅) = Some s
    /\ upload_response (Settle 0 (Refused (Some "Bucket not found")))
         (exec (Upload demo_id "1700000000000" demo_req)
            (exec (Arrive "data.csv") (boot ∅ ∅)))
       = Some (demo_id,
               Json 500 (BUploadFailed
                 "Upload process failed: Supabase upload failed: Bucket not found"))
    /\ jobs s !! demo_id = Some j
    /\ Job.status j = VString "error"
    /\ bool_decide ("uploads/data.csv" ∈ disk s) = true.
Proof.
  eexists. eexists.
  split; [vm_compute; reflexivity|].
  split; [vm_compute; reflexivity|].
  split; [vm_compute; reflexivity|].
  split; [reflexivity|]. vm_compute. reflexivity.
Qed.

(** ** Keys that [jobs] inherits *)

(** C5, at the input where the code departs from it. [constructor] was never
    created as a job id, yet [jobs["constructor"]] is the function [Object]:
    the status query answers 200 instead of 404, and the callback writes
    [status], [progress] and [result] on that function. *)
Theorem inherited_key_is_not_missed :
  let s := boot ∅ ∅ in
  let b := Body.mk (VString "constructor") VUndefined VUndefined VUndefined in
  jobs s !! "constructor" = None
  /\ status_query "constructor" s = Json 200 (BRuntime "constructor")
  /\ callback b s = (set_tampered (cons "constructor") s, callback_ok)
  /\ tampered (callback b s).1 = ["constructor"]
  /\ (callback b s).1 <> s.
Proof.
  simpl. split; [reflexivity|]. split; [reflexivity|].
  split; [reflexivity|]. split; [reflexivity|]. discriminate.
Qed.

(** ** Runs *)

Lemma run_invariant (P : state -> Prop) :
  (forall s l, P s -> admissible s l = true -> P (exec l s)) ->
  forall ls s s', P s -> run ls s = Some s' -> P s'.
Proof.
  intros Hstep ls. induction ls as [|l ls IH]; intros s s' HP Hrun; simpl in *.
  - by simplify_eq.
  - destruct (admissible s l) eqn:Ha; [|done].
    apply (IH (exec l s)); [by apply Hstep | done].
Qed.

Lemma proper_run_invariant (P : state -> Prop) :
  (forall s l, P s -> admissible s l = true -> causal s l = true ->
               P (exec l s)) ->
  forall ls s s', P s -> proper_run ls s = Some s' -> P s'.
Proof.
  intros Hstep ls. induction ls as [|l ls IH]; intros s s' HP Hrun; simpl in *.
  - by simplify_eq.
  - destruct (admissible s l) eqn:Ha; [|done].
    destruct (causal s l) eqn:Hc; [|done].
    apply (IH (exec l s)); [by apply Hstep | done].
Qed.

(** A proper run is a run. *)
Lemma proper_run_run (ls : list label) (s s' : state) :
  proper_run ls s = Some s' -> run ls s = Some s'.
Proof.
  revert s. induction ls as [|l ls IH]; intros s H; simpl in *; [done|].
  destruct (admissible s l); [|done]. destruct (causal s l); [|done]. auto.
Qed.

Lemma upload_catch_inflight (jobId msg : string) (s : state) :
  inflight (upload_catch jobId msg s).1.1 = inflight s.
Proof. unfold upload_catch, assign. by destruct (jobs_get s jobId). Qed.

(** The suspended handlers after a step. *)
Lemma exec_inflight (s : state) (l : label) :
  inflight (exec l s)
  = match l with
    | Upload jobId now req =>
        match Request.csv req with
        | Some path =>
            if truthy (Request.email req) && bool_decide (path ∈ disk s)
            then (inflight s ++ [Frame jobId path (Request.email req)])%list
            else inflight s
        | None => inflight s
        end
    | Settle i o => delete i (inflight s)
    | _ => inflight s
    end.
Proof.
  destruct l as [name | jobId now req | i o | b | q]; simpl; try done.
  - unfold upload. destruct (Request.csv req) as [path|]; [|done].
    destruct (truthy (Request.email req)); simpl; [|done].
    destruct (bool_decide (path ∈ disk s)); simpl; [done|].
    match goal with
    | |- context [upload_catch ?a ?m ?t] =>
        pose proof (upload_catch_inflight a m t) as Hc;
        destruct (upload_catch a m t) as [[s2 evs] r]
    end.
    simpl in *. by rewrite Hc.
  - destruct (inflight s !! i) as [fr|] eqn:Hfr.
    + unfold upload_resume. destruct o as [path url|m|m].
      * destruct (jobs_get _ _) eqn:Hg.
        -- unfold assign. rewrite Hg. by destruct (bool_decide _).
        -- unfold assign. rewrite Hg. by destruct (bool_decide _).
        -- match goal with
           | |- context [upload_catch ?a ?m ?t] =>
               pose proof (upload_catch_inflight a m t) as Hc;
               destruct (upload_catch a m t) as [[s2 evs] r]
           end.
           simpl in *. by rewrite Hc.
      * by rewrite upload_catch_inflight.
      * by rewrite upload_catch_inflight.
    + apply lookup_ge_None in Hfr.
      by rewrite delete_take_drop, take_ge, drop_ge, app_nil_r by lia.
  - unfold callback. destruct (truthy _); [|done].
    destruct (to_property_key _) as [k|]; [|done].
    unfold assign. by destruct (jobs_get s k).
Qed.

Lemma exec_keeps_records (s : state) (l : label) (k : string) :
  admissible s l = true ->
  is_Some (jobs s !! k) -> is_Some (jobs (exec l s) !! k).
Proof.
  intros Ha Hs. destruct (exec_effect s l k Ha); eauto.
Qed.

(** ** Consistency under correct operation *)

Lemma nodup_delete_other {A B : Type} (f : A -> B) (l : list A) (i : nat)
  (x y : A) :
  NoDup (f <$> l) -> l !! i = Some x -> y ∈ delete i l -> f y <> f x.
Proof.
  intros Hnd Hi Hy Heq.
  rewrite <- (take_drop_middle l i x Hi) in Hnd.
  rewrite delete_take_drop in Hy.
  rewrite fmap_app, fmap_cons in Hnd.
  apply NoDup_app in Hnd as (_ & Hdisj & Hnd2).
  apply NoDup_cons in Hnd2 as [Hx _].
  apply elem_of_app in Hy as [Hy|Hy].
  - apply (Hdisj (f y)); [by apply list_elem_of_fmap_2|].
    rewrite Heq. apply elem_of_cons. by left.
  - apply Hx. rewrite <- Heq. by apply list_elem_of_fmap_2.
Qed.

Lemma upload_accepted
  (jobId now : string) (req : Request.t) (s : state) (path : string) :
  Request.csv req = Some path ->
  truthy (Request.email req) = true ->
  path ∈ disk s ->
  (upload jobId now req s).1.1
  = set_inflight
      (fun l => (l ++ [Frame jobId path (Request.email req)])%list)
      (set_jobs (insert jobId (initial_job jobId (Request.email req))) s)
  /\ (upload jobId now req s).2 = Awaiting.
Proof.
  intros Hcsv Hmail Hdisk. unfold upload. rewrite Hcsv, Hmail. simpl.
  by rewrite bool_decide_eq_true_2.
Qed.

Lemma boot_consistent (e : gmap string string) (d : gset string) :
  consistent (boot e d).
Proof.
  split; simpl.
  - intros fr H. by apply elem_of_nil in H.
  - constructor.
  - intros k j H. by rewrite lookup_empty in H.
Qed.

(** An old suspended handler keeps its record through a step. *)
Lemma exec_old_frame (s : state) (l : label) (fr : frame) :
  consistent s -> admissible s l = true -> causal s l = true ->
  fr ∈ inflight s ->
  (forall i o, l = Settle i o -> fr ∈ delete i (inflight s)) ->
  exists j, jobs (exec l s) !! frame_jobId fr = Some j
            /\ Job.status j = VString "uploading"
            /\ Job.progress j = 10%Z.
Proof.
  intros Hc Ha Hca Hfr Hdel.
  destruct (consistent_frames s Hc fr Hfr) as (j & Hj & Hst & Hpr).
  destruct (exec_effect s l (frame_jobId fr) Ha)
    as [ | now req path Hl Hcsv Hm Hnone _
         | now req path Hl Hcsv Hm Hnone _
         | i fr0 path url j0 Hl Hi Hk Hj0
         | i o fr0 msg j0 Hl Ho Hi Hk Hj0
         | b j0 Hl Ht Hk Hj0 ].
  - eauto.
  - congruence.
  - congruence.
  - exfalso.
    apply (nodup_delete_other frame_jobId (inflight s) i fr0 fr);
      [apply (consistent_nodup s Hc) | done | by eapply Hdel | done].
  - exfalso.
    apply (nodup_delete_other frame_jobId (inflight s) i fr0 fr);
      [apply (consistent_nodup s Hc) | done | by eapply Hdel | done].
  - exfalso. subst l. simpl in Hca. rewrite Hk, Ht in Hca. simpl in Hca.
    apply negb_true_iff, bool_decide_eq_false in Hca.
    apply Hca. by apply list_elem_of_fmap_2.
Qed.

Lemma exec_consistent (s : state) (l : label) :
  consistent s -> admissible s l = true -> causal s l = true ->
  consistent (exec l s).
Proof.
  intros Hc Ha Hca. split.
  - (* the suspended handlers *)
    intros fr. rewrite exec_inflight.
    destruct l as [name | jobId now req | i o | b | q];
      try (intros Hfr; apply (exec_old_frame s _ fr Hc Ha Hca Hfr);
           intros; discriminate).
    + destruct (Request.csv req) as [path|] eqn:Hcsv;
        [|intros Hfr; apply (exec_old_frame s _ fr Hc Ha Hca Hfr);
          intros; discriminate].
      destruct (truthy (Request.email req)) eqn:Hm; simpl;
        [|intros Hfr; apply (exec_old_frame s _ fr Hc Ha Hca Hfr);
          intros; discriminate].
      destruct (bool_decide (path ∈ disk s)) eqn:Hd;
        [|intros Hfr; apply (exec_old_frame s _ fr Hc Ha Hca Hfr);
          intros; discriminate].
      intros [Hfr|Hfr]%elem_of_app.
      * apply (exec_old_frame s _ fr Hc Ha Hca Hfr). intros; discriminate.
      * apply list_elem_of_singleton in Hfr. subst fr.
        apply bool_decide_eq_true in Hd.
        destruct (upload_accepted jobId now req s path Hcsv Hm Hd) as [-> _].
        simpl. rewrite lookup_insert_eq. eexists. by split.
    + intros Hfr.
      apply (exec_old_frame s _ fr Hc Ha Hca
               (list_elem_of_delete_inv _ _ _ Hfr)).
      intros i' o' [= <- <-]. done.
  - (* one handler per job *)
    rewrite exec_inflight.
    destruct l as [name | jobId now req | i o | b | q];
      try apply (consistent_nodup s Hc).
    + destruct (Request.csv req) as [path|]; [|apply (consistent_nodup s Hc)].
      destruct (truthy (Request.email req) && bool_decide (path ∈ disk s));
        [|apply (consistent_nodup s Hc)].
      rewrite fmap_app. apply NoDup_app. split; [apply (consistent_nodup s Hc)|].
      split; [|apply NoDup_singleton].
      intros k Hk Hk'. apply list_elem_of_singleton in Hk'. simpl in Hk'.
      subst k. apply list_elem_of_fmap_1 in Hk as (fr & Heq & Hfr).
      destruct (consistent_frames s Hc fr Hfr) as (j & Hj & _).
      apply admissible_upload in Ha as (_ & Hfresh & _). congruence.
    + rewrite list_fmap_delete.
      apply (sublist_NoDup _ _ (consistent_nodup s Hc)), sublist_delete.
  - (* progress *)
    intros k j Hj.
    destruct (exec_effect s l k Ha)
      as [ | now req path Hl Hcsv Hm Hnone _
           | now req path Hl Hcsv Hm Hnone _
           | i fr0 path url j0 Hl Hi Hk Hj0
           | i o fr0 msg j0 Hl Ho Hi Hk Hj0
           | b j0 Hl Ht Hk Hj0 ];
      try (injection Hj as <-; simpl; auto; fail).
    + by apply (consistent_progress s Hc k).
    + injection Hj as <-. simpl. by apply (consistent_progress s Hc k).
Qed.

Lemma proper_run_consistent
  (e : gmap string string) (d : gset string) (ls : list label) (s : state) :
  proper_run ls (boot e d) = Some s -> consistent s.
Proof.
  apply (proper_run_invariant consistent).
  - intros s0 l. apply exec_consistent.
  - apply boot_consistent.
Qed.

(** C9. Under correct operation (job ids are fresh, and a callback names a
    job only after its upload has been handed to the workflow engine), no
    step of the server lowers the progress of a job, and progress is one of
    10, 40 and 100. *)
Theorem progress_never_decreases
  (e : gmap string string) (d : gset string) (ls : list label) (s : state)
  (l : label) (k : string) (j : Job.t) :
  proper_run ls (boot e d) = Some s ->
  admissible s l = true ->
  causal s l = true ->
  jobs s !! k = Some j ->
  exists j',
    jobs (exec l s) !! k = Some j'
    /\ (Job.progress j <= Job.progress j')%Z
    /\ (Job.progress j' = 10%Z \/ Job.progress j' = 40%Z
        \/ Job.progress j' = 100%Z).
Proof.
  intros Hrun Ha Hca Hj.
  pose proof (proper_run_consistent e d ls s Hrun) as Hc.
  pose proof (exec_consistent s l Hc Ha Hca) as Hc'.
  destruct (exec_keeps_records s l k Ha) as [j' Hj']; [by eexists|].
  exists j'. split; [done|]. split; [|by apply (consistent_progress _ Hc' k)].
  effect_cases s l k Ha Hj'.
  - assert (j' = j) as -> by congruence. lia.
  - congruence.
  - congruence.
  - injection Hoj as <-. simpl.
    destruct (consistent_frames s Hc fr0) as (j1 & Hj1 & _ & Hp);
      [by eapply list_elem_of_lookup_2|].
    assert (j1 = j) as -> by congruence. lia.
  - injection Hoj as <-. simpl. assert (j0 = j) as -> by congruence. lia.
  - injection Hoj as <-. simpl.
    destruct (consistent_progress s Hc k j Hj) as [->| [->| ->]]; lia.
Qed.

Lemma progress_never_decreases_witness :
  exists j',
    jobs (exec (Settle 0 (Stored "uploads/1700000000000_data.csv"
                            "https://store/x.csv"))
            (exec (Upload demo_id "1700000000000" demo_req)
               (exec (Arrive "data.csv") (boot ∅ ∅)))) !! demo_id = Some j'
    /\ (10 <= Job.progress j')%Z.
Proof.
  destruct (progress_never_decreases ∅ ∅
              [Arrive "data.csv"; Upload demo_id "1700000000000" demo_req]
              (exec (Upload demo_id "1700000000000" demo_req)
                 (exec (Arrive "data.csv") (boot ∅ ∅)))
              (Settle 0 (Stored "uploads/1700000000000_data.csv"
                           "https://store/x.csv"))
              demo_id
              (initial_job demo_id (VString "ada@example.org")))
    as (j' & H1 & H2 & _);
    [vm_compute; reflexivity | vm_compute; reflexivity | reflexivity
    | vm_compute; reflexivity |].
  exists j'. split; assumption.
Defined.

(** Without the second condition progress can fall: a callback that names a
    job whose upload is still suspended sets 100, and the continuation of the
    upload then sets 40. *)
Example early_callback_lowers_progress :
  exists s s' j j',
    run [Arrive "data.csv"; Upload demo_id "1700000000000" demo_req;
         Callback demo_completed] (boot ∅ ∅) = Some s
    /\ jobs s !! demo_id = Some j /\ Job.progress j = 100%Z
    /\ run [Settle 0 (Stored "uploads/1700000000000_data.csv"
                        "https://store/x.csv")] s = Some s'
    /\ jobs s' !! demo_id = Some j' /\ Job.progress j' = 40%Z.
Proof.
  do 4 eexists.
  split; [vm_compute; reflexivity|]. split; [vm_compute; reflexivity|].
  split; [reflexivity|]. split; [vm_compute; reflexivity|].
  split; [vm_compute; reflexivity|]. reflexivity.
Qed.

(** C2 (as amended). Under correct operation, the status of a job that is
    ["completed"] or ["error"] is changed by one operation only: a callback
    carrying its id, which stores the status that callback reports
    (["completed"] when it reports none). Every other step leaves it as it
    is. *)
Theorem terminal_status_changed_only_by_callback
  (e : gmap string string) (d : gset string) (ls : list label) (s : state)
  (l : label) (k : string) (j : Job.t) :
  proper_run ls (boot e d) = Some s ->
  admissible s l = true ->
  causal s l = true ->
  jobs s !! k = Some j ->
  terminal (Job.status j) = true ->
  exists j',
    jobs (exec l s) !! k = Some j'
    /\ (Job.status j' = Job.status j
        \/ exists b,
             l = Callback b
             /\ truthy (Body.jobId b) = true
             /\ to_property_key (Body.jobId b) = Some k
             /\ Job.status j'
                = js_or (Body.status b) (VString "completed")).
Proof.
  intros Hrun Ha Hca Hj Hterm.
  pose proof (proper_run_consistent e d ls s Hrun) as Hc.
  destruct (exec_keeps_records s l k Ha) as [j' Hj']; [by eexists|].
  exists j'. split; [done|].
  assert (forall n fr, inflight s !! n = Some fr -> frame_jobId fr = k ->
                       False) as Hnotinflight.
  { intros n fr Hn Hfr.
    destruct (consistent_frames s Hc fr) as (j1 & Hj1 & Hst & _);
      [by eapply list_elem_of_lookup_2|].
    assert (j1 = j) as -> by congruence. by rewrite Hst in Hterm. }
  effect_cases s l k Ha Hj'.
  - left. congruence.
  - congruence.
  - congruence.
  - destruct (Hnotinflight i fr0 Hi Hk).
  - destruct (Hnotinflight i fr0 Hi Hk).
  - right. exists b. injection Hoj as <-. by repeat split.
Qed.

Lemma terminal_status_changed_only_by_callback_witness :
  exists j',
    jobs (exec (Callback demo_completed)
            (exec (Callback demo_completed) demo_state)) !! demo_id = Some j'.
Proof.
  destruct (terminal_status_changed_only_by_callback ∅ ∅
              (demo_run ++ [Callback demo_completed])%list
              (exec (Callback demo_completed) demo_state)
              (Callback demo_completed) demo_id
              (set_callback demo_completed demo_job))
    as (j' & H1 & _);
    [vm_compute; reflexivity | vm_compute; reflexivity
    | vm_compute; reflexivity | vm_compute; reflexivity
    | vm_compute; reflexivity |].
  exists j'. assumption.
Defined.

(** C2 as the specification words it fails: a job is ["completed"], a second
    callback for it reports ["error"], and its status is ["error"]
    afterwards. *)
Lemma second_callback_leaves_completed :
  exists s j j',
    proper_run (demo_run ++ [Callback demo_completed])%list (boot ∅ ∅) = Some s
    /\ jobs s !! demo_id = Some j
    /\ Job.status j = VString "completed"
    /\ admissible s (Callback demo_failed) = true
    /\ causal s (Callback demo_failed) = true
    /\ jobs (exec (Callback demo_failed) s) !! demo_id = Some j'
    /\ Job.status j' = VString "error".
Proof.
  do 3 eexists.
  split; [vm_compute; reflexivity|]. split; [vm_compute; reflexivity|].
  split; [reflexivity|]. split; [reflexivity|]. split; [reflexivity|].
  split; [vm_compute; reflexivity|]. reflexivity.
Qed.

(** ** The result field *)

Lemma reaches_spec (k : string) (l : label) (s : state) :
  reaches k l s = true <->
  exists b j,
    l = Callback b /\ truthy (Body.jobId b) = true
    /\ to_property_key (Body.jobId b) = Some k /\ jobs s !! k = Some j.
Proof.
  split.
  - destruct l as [| | |b|]; simpl; try done.
    intros H. apply andb_prop in H as [H H3]. apply andb_prop in H as [H1 H2].
    apply bool_decide_eq_true in H2. apply bool_decide_eq_true in H3 as [j Hj].
    by exists b, j.
  - intros (b & j & -> & H1 & H2 & H3). unfold reaches. rewrite H1.
    rewrite (bool_decide_eq_true_2 _ H2).
    by rewrite bool_decide_eq_true_2 by by eexists.
Qed.

(** The record under [k] has a result after a step exactly when the step is
    a callback that reaches it, or it had one before. *)
Lemma exec_result (s : state) (l : label) (k : string) :
  admissible s l = true ->
  (exists j', jobs (exec l s) !! k = Some j' /\ is_Some (Job.result j'))
  <-> (reaches k l s = true
       \/ exists j, jobs s !! k = Some j /\ is_Some (Job.result j)).
Proof.
  intros Ha. split.
  - intros (j' & Hj' & Hres).
    effect_cases s l k Ha Hj'.
    + right. by exists j'.
    + injection Hoj as <-. simpl in Hres. by destruct Hres.
    + injection Hoj as <-. simpl in Hres. by destruct Hres.
    + injection Hoj as <-. right. by exists j0.
    + injection Hoj as <-. right. by exists j0.
    + left. apply reaches_spec. by exists b, j0.
  - intros [Hr | (j & Hj & Hres)].
    + apply reaches_spec in Hr as (b & j & -> & Ht & Hk & Hj). simpl.
      rewrite (callback_own _ _ _ _ Ht Hk Hj). simpl.
      rewrite lookup_insert_eq. eexists. split; [done|]. by eexists.
    + destruct (exec_keeps_records s l k Ha) as [j' Hj']; [by eexists|].
      exists j'. split; [done|].
      effect_cases s l k Ha Hj'.
      * congruence.
      * congruence.
      * congruence.
      * injection Hoj as <-. simpl. congruence.
      * injection Hoj as <-. simpl. congruence.
      * injection Hoj as <-. simpl. by eexists.
Qed.

Lemma run_result (ls : list label) :
  forall (s0 s : state) (k : string) (j : Job.t),
    run ls s0 = Some s ->
    jobs s !! k = Some j ->
    is_Some (Job.result j)
    <-> (reached k ls s0 = true
         \/ exists j0, jobs s0 !! k = Some j0 /\ is_Some (Job.result j0)).
Proof.
  induction ls as [|l ls IH]; intros s0 s k j Hrun Hj; simpl in *.
  - simplify_eq. split.
    + intros H. right. by exists j.
    + intros [H | (j0 & Hj0 & H)]; [done | congruence].
  - destruct (admissible s0 l) eqn:Ha; [|done].
    rewrite (IH _ _ _ _ Hrun Hj), (exec_result s0 l k Ha).
    rewrite orb_true_iff. tauto.
Qed.

Lemma reached_with_success_reached (k : string) (ls : list label) :
  forall s, reached_with_success k ls s = true -> reached k ls s = true.
Proof.
  induction ls as [|l ls IH]; intros s; simpl; [done|].
  unfold reaches_with_success. rewrite !orb_true_iff, andb_true_iff.
  intros [[H _] | H]; auto.
Qed.

(** A record whose status is ["completed"] has a result. *)
Lemma exec_completed_has_result (s : state) (l : label) :
  (forall k j, jobs s !! k = Some j -> Job.status j = VString "completed" ->
               is_Some (Job.result j)) ->
  admissible s l = true ->
  forall k j, jobs (exec l s) !! k = Some j ->
              Job.status j = VString "completed" -> is_Some (Job.result j).
Proof.
  intros HP Ha k j' Hj'.
  effect_cases s l k Ha Hj';
    try (injection Hoj as <-; simpl; (discriminate || by eexists)).
  intros Hst. apply (HP k j'); [congruence | done].
Qed.

(** C1 (as amended). In every run from the start of the process, the result
    of a job record is set if and only if a callback carrying its id has
    reached the record, whatever status that callback reported; so it is set
    whenever a callback that reported success has reached it, and no record
    has status ["completed"] without a result. *)
Theorem result_iff_callback_reached
  (e : gmap string string) (d : gset string) (ls : list label) (s : state)
  (k : string) (j : Job.t) :
  run ls (boot e d) = Some s ->
  jobs s !! k = Some j ->
  (is_Some (Job.result j) <-> reached k ls (boot e d) = true)
  /\ (reached_with_success k ls (boot e d) = true -> is_Some (Job.result j))
  /\ (Job.status j = VString "completed" -> is_Some (Job.result j)).
Proof.
  intros Hrun Hj.
  assert (is_Some (Job.result j) <-> reached k ls (boot e d) = true) as Hiff.
  { rewrite (run_result ls _ _ _ _ Hrun Hj). split; [|by left].
    intros [H | (j0 & Hj0 & _)]; [done|].
    simpl in Hj0. by rewrite lookup_empty in Hj0. }
  split; [done|]. split.
  - intros H. by apply Hiff, reached_with_success_reached.
  - assert (forall k0 j0, jobs s !! k0 = Some j0 ->
              Job.status j0 = VString "completed" ->
              is_Some (Job.result j0)) as Hall; [|by apply (Hall k j)].
    apply (run_invariant
             (fun s => forall k j, jobs s !! k = Some j ->
                Job.status j = VString "completed" ->
                is_Some (Job.result j))
             exec_completed_has_result ls (boot e d) s); [|done].
    intros k0 j0 Hj0. simpl in Hj0. by rewrite lookup_empty in Hj0.
Qed.

Lemma result_iff_callback_reached_witness :
  is_Some (Job.result (set_callback demo_failed demo_job))
  <-> reached demo_id (demo_run ++ [Callback demo_failed])%list (boot ∅ ∅)
      = true.
Proof.
  destruct (result_iff_callback_reached ∅ ∅
              (demo_run ++ [Callback demo_failed])%list
              (exec (Callback demo_failed) demo_state)
              demo_id (set_callback demo_failed demo_job))
    as (H & _); [vm_compute; reflexivity | vm_compute; reflexivity |].
  exact H.
Defined.

(** C1 as the specification words it fails: the workflow engine reports
    ["error"] for a job; the record then has status ["error"] and a result,
    although no callback that reported success has reached it. *)
Lemma error_callback_sets_result :
  exists s j r,
    proper_run (demo_run ++ [Callback demo_failed])%list (boot ∅ ∅) = Some s
    /\ jobs s !! demo_id = Some j
    /\ Job.status j = VString "error"
    /\ Job.result j = Some r
    /\ Result.message r = VString "training failed"
    /\ reached_with_success demo_id
         (demo_run ++ [Callback demo_failed])%list (boot ∅ ∅) = false.
Proof.
  do 3 eexists.
  split; [vm_compute; reflexivity|]. split; [vm_compute; reflexivity|].
  split; [reflexivity|]. split; [reflexivity|]. split; [reflexivity|].
  vm_compute. reflexivity.
Qed.

(** ** The record of an accepted upload *)

(** In every run, a suspended upload handler has its job record. *)
Lemma exec_frames_have_records (s : state) (l : label) :
  (forall fr, fr ∈ inflight s -> is_Some (jobs s !! frame_jobId fr)) ->
  admissible s l = true ->
  forall fr, fr ∈ inflight (exec l s) ->
             is_Some (jobs (exec l s) !! frame_jobId fr).
Proof.
  intros HP Ha fr. rewrite exec_inflight.
  assert (fr ∈ inflight s -> is_Some (jobs (exec l s) !! frame_jobId fr))
    as Hold by (intros H; by apply exec_keeps_records, HP).
  destruct l as [name | jobId now req | i o | b | q]; try done.
  - destruct (Request.csv req) as [path|] eqn:Hcsv; [|done].
    destruct (truthy (Request.email req)) eqn:Hm; [|done].
    destruct (bool_decide (path ∈ disk s)) eqn:Hd; [|done]. simpl.
    intros [Hfr|Hfr]%elem_of_app; [auto|].
    apply list_elem_of_singleton in Hfr. subst fr.
    apply bool_decide_eq_true in Hd.
    destruct (upload_accepted jobId now req s path Hcsv Hm Hd) as [-> _].
    simpl. rewrite lookup_insert_eq. by eexists.
  - intros Hfr. by apply Hold, (list_elem_of_delete_inv _ i).
Qed.

Lemma run_frames_have_records
  (e : gmap string string) (d : gset string) (ls : list label) (s : state) :
  run ls (boot e d) = Some s ->
  forall fr, fr ∈ inflight s -> is_Some (jobs s !! frame_jobId fr).
Proof.
  apply (run_invariant
           (fun s => forall fr, fr ∈ inflight s ->
                                is_Some (jobs s !! frame_jobId fr))
           exec_frames_have_records).
  intros fr H. by apply elem_of_nil in H.
Qed.

(** The continuation of the upload handler leaves the job in ["training"] or
    in ["error"]. *)
Lemma upload_resume_status
  (fr : frame) (o : store_outcome) (s : state) (j : Job.t) :
  jobs s !! frame_jobId fr = Some j ->
  exists j',
    jobs (upload_resume fr o s).1.1 !! frame_jobId fr = Some j'
    /\ (Job.status j' = VString "training"
        \/ Job.status j' = VString "error").
Proof.
  intros Hj. destruct o as [path url|m|m]; simpl.
  - rewrite (jobs_get_own _ _ _ Hj), (assign_own _ _ _ _ Hj).
    exists (set_training j). split; [|by left].
    destruct (bool_decide _); simpl; apply lookup_insert_eq.
  - rewrite upload_catch_jobs, decide_True by done. rewrite Hj. simpl.
    eexists. split; [done|]. by right.
  - rewrite upload_catch_jobs, decide_True by done. rewrite Hj. simpl.
    eexists. split; [done|]. by right.
Qed.

(** The first thing the handler does for an upload that passes validation is
    to write the job record. *)
Lemma upload_first_write
  (jobId now : string) (req : Request.t) (s : state) :
  valid req = true ->
  exists rest, (upload jobId now req s).1.2 = JobCreated jobId :: rest.
Proof.
  unfold valid, upload. intros H. apply andb_prop in H as [H1 H2].
  apply bool_decide_eq_true in H1 as [path Hcsv]. rewrite Hcsv, H2. simpl.
  destruct (bool_decide (path ∈ disk s)); simpl; [by eexists|].
  destruct (upload_catch _ _ _) as [[s2 evs] r]. simpl. by eexists.
Qed.

(** C4. In every run, when the response of an upload that passed validation
    is sent, the registry has a record for its job id, with status
    ["training"] or ["error"]; and the write of that record is the first
    effect of the handler, ahead of every call to the content store. *)
Theorem valid_upload_leaves_record
  (e : gmap string string) (d : gset string) (ls : list label) (s : state)
  (l : label) (jobId : string) (r : response) :
  run ls (boot e d) = Some s ->
  admissible s l = true ->
  upload_response l s = Some (jobId, r) ->
  (exists j,
     jobs (exec l s) !! jobId = Some j
     /\ (Job.status j = VString "training"
         \/ Job.status j = VString "error"))
  /\ (forall id now req s0,
        valid req = true ->
        exists rest, (upload id now req s0).1.2 = JobCreated id :: rest).
Proof.
  intros Hrun Ha Hresp. split; [|intros; by apply upload_first_write].
  destruct l as [name | id now req | i o | b | q]; simpl in Hresp; try done.
  - destruct ((upload id now req s).2) as [r'|] eqn:Hout; [|done].
    destruct (valid req) eqn:Hv; [|done]. simplify_eq. simpl.
    unfold valid in Hv. apply andb_prop in Hv as [H1 H2].
    apply bool_decide_eq_true in H1 as [path Hcsv].
    unfold upload in *. rewrite Hcsv, H2 in *. simpl in *.
    destruct (bool_decide (path ∈ disk s)); simpl in *; [done|].
    match goal with
    | |- context [upload_catch ?a ?m ?t] =>
        pose proof (upload_catch_jobs a m t jobId) as Hc;
        destruct (upload_catch a m t) as [[s2 evs] r']
    end.
    simpl in *. rewrite Hc, decide_True, lookup_insert_eq by done. simpl.
    eexists. split; [done|]. by right.
  - destruct (inflight s !! i) as [fr|] eqn:Hfr; [|done]. simplify_eq.
    destruct (run_frames_have_records e d ls s Hrun fr) as [j Hj];
      [by eapply list_elem_of_lookup_2|].
    simpl. rewrite Hfr.
    by apply (upload_resume_status fr o (set_inflight (delete i) s) j).
Qed.

Lemma valid_upload_leaves_record_witness :
  exists j,
    jobs (exec (Settle 0 (Refused (Some "Bucket not found")))
            (exec (Upload demo_id "1700000000000" demo_req)
               (exec (Arrive "data.csv") (boot ∅ ∅)))) !! demo_id = Some j
    /\ (Job.status j = VString "training"
        \/ Job.status j = VString "error").
Proof.
  destruct (valid_upload_leaves_record ∅ ∅
              [Arrive "data.csv"; Upload demo_id "1700000000000" demo_req]
              (exec (Upload demo_id "1700000000000" demo_req)
                 (exec (Arrive "data.csv") (boot ∅ ∅)))
              (Settle 0 (Refused (Some "Bucket not found")))
              demo_id
              (Json 500 (BUploadFailed
                 "Upload process failed: Supabase upload failed: Bucket not found")))
    as (H & _);
    [vm_compute; reflexivity | vm_compute; reflexivity
    | vm_compute; reflexivity |].
  exact H.
Defined.

(** ** The registry as a whole *)

Lemma assign_dom (k : string) (f : Job.t -> Job.t) (s : state) :
  dom (jobs (assign k f s)) = dom (jobs s).
Proof.
  unfold assign, jobs_get. destruct (jobs s !! k) as [j|] eqn:Hj.
  - simpl. rewrite dom_insert_L.
    assert (k ∈ dom (jobs s)) by (apply elem_of_dom; by eexists). set_solver.
  - by destruct (inherited k).
Qed.

Lemma callback_dom (b : Body.t) (s : state) :
  dom (jobs (callback b s).1) = dom (jobs s).
Proof.
  unfold callback. destruct (truthy (Body.jobId b)); [|done].
  destruct (to_property_key (Body.jobId b)) as [k|]; [|done].
  destruct (jobs_get s k) eqn:Hg; simpl; try done; apply assign_dom.
Qed.

(** X1. Whatever its body and whatever the state, the callback handler
    neither creates nor removes a job record, leaves every record other than
    the one its job id names as it is, and touches neither the local files
    nor the suspended uploads. *)
Theorem callback_confined (b : Body.t) (s : state) :
  dom (jobs (callback b s).1) = dom (jobs s)
  /\ (forall k, to_property_key (Body.jobId b) <> Some k ->
                jobs (callback b s).1 !! k = jobs s !! k)
  /\ disk (callback b s).1 = disk s
  /\ inflight (callback b s).1 = inflight s.
Proof.
  split; [apply callback_dom|].
  unfold callback. destruct (truthy (Body.jobId b)); [|done].
  destruct (to_property_key (Body.jobId b)) as [k0|]; [|done].
  unfold assign.
  destruct (jobs_get s k0) eqn:Hg; simpl; repeat split; try done.
  intros k Hk. apply lookup_insert_ne. congruence.
Qed.

Lemma upload_catch_dom (jobId msg : string) (s : state) :
  dom (jobs (upload_catch jobId msg s).1.1) = dom (jobs s).
Proof.
  unfold upload_catch. destruct (jobs_get s jobId); simpl; try done;
    apply assign_dom.
Qed.

Lemma upload_resume_dom (fr : frame) (o : store_outcome) (s : state) :
  dom (jobs (upload_resume fr o s).1.1) = dom (jobs s).
Proof.
  unfold upload_resume. destruct o as [path url|m|m];
    try apply upload_catch_dom.
  destruct (jobs_get s (frame_jobId fr)) eqn:Hg.
  - destruct (bool_decide _); simpl; apply assign_dom.
  - destruct (bool_decide _); simpl; apply assign_dom.
  - match goal with
    | |- context [upload_catch ?a ?m ?t] =>
        pose proof (upload_catch_dom a m t) as Hc;
        destruct (upload_catch a m t) as [[s2 evs] r]
    end.
    done.
Qed.

Lemma upload_dom (jobId now : string) (req : Request.t) (s : state) :
  dom (jobs (upload jobId now req s).1.1)
  = dom (jobs s) ∪ (if valid req then {[jobId]} else ∅).
Proof.
  unfold upload, valid. destruct (Request.csv req) as [path|]; simpl;
    [|set_solver].
  destruct (truthy (Request.email req)); simpl; [|set_solver].
  destruct (bool_decide (path ∈ disk s)); simpl.
  - rewrite dom_insert_L. set_solver.
  - match goal with
    | |- context [upload_catch ?a ?m ?t] =>
        pose proof (upload_catch_dom a m t) as Hc;
        destruct (upload_catch a m t) as [[s2 evs] r]
    end.
    simpl in *. rewrite Hc, dom_insert_L. set_solver.
Qed.

(** The job ids of the registry after a step: those before, and the one of
    an upload that passed validation. *)
Lemma exec_dom (l : label) (s : state) :
  dom (jobs (exec l s))
  = dom (jobs s) ∪ (match created l with Some k => {[k]} | None => ∅ end).
Proof.
  destruct l as [name | jobId now req | i o | b | q]; simpl.
  - set_solver.
  - rewrite upload_dom. by destruct (valid req).
  - destruct (inflight s !! i) as [fr|]; [|set_solver].
    rewrite upload_resume_dom. simpl. set_solver.
  - rewrite callback_dom. set_solver.
  - set_solver.
Qed.

Lemma run_size (ls : list label) :
  forall s s',
    run ls s = Some s' ->
    size (jobs s') = (size (jobs s) + accepted_uploads ls)%nat.
Proof.
  induction ls as [|l ls IH]; intros s s' Hrun; simpl in Hrun.
  - simplify_eq. unfold accepted_uploads. simpl. lia.
  - destruct (admissible s l) eqn:Ha; [|done].
    rewrite (IH _ _ Hrun). unfold accepted_uploads.
    rewrite <- !size_dom, exec_dom.
    destruct (created l) as [k|] eqn:Hc.
    + rewrite filter_cons_True by (rewrite Hc; by eexists). simpl.
      rewrite size_union, size_singleton; [lia|].
      apply disjoint_singleton_r, not_elem_of_dom.
      destruct l as [name | jobId now req | i o | b | q]; try done.
      simpl in Hc. destruct (valid req); [|done]. simplify_eq.
      by apply admissible_upload in Ha as (_ & Hfresh & _).
    + rewrite filter_cons_False by (rewrite Hc; by intros [? ?]).
      rewrite union_empty_r_L. lia.
Qed.

(** X2. In every run from the start of the process, the registry holds
    exactly one record per upload that passed validation: callbacks, status
    queries and rejected uploads add none, and nothing ever removes one. *)
Theorem one_record_per_accepted_upload
  (e : gmap string string) (d : gset string) (ls : list label) (s : state) :
  run ls (boot e d) = Some s ->
  size (jobs s) = accepted_uploads ls.
Proof.
  intros Hrun. rewrite (run_size ls _ _ Hrun). simpl.
  by rewrite map_size_empty.
Qed.

Lemma one_record_per_accepted_upload_witness :
  size (jobs (exec (Callback demo_completed) demo_state))
  = accepted_uploads (demo_run ++ [Callback demo_completed])%list.
Proof.
  apply (one_record_per_accepted_upload ∅ ∅). vm_compute. reflexivity.
Defined.

(** ** The shape of the records *)

Lemma boot_wellformed (e : gmap string string) (d : gset string) :
  wellformed (boot e d).
Proof.
  split; simpl.
  - intros k j H. by rewrite lookup_empty in H.
  - intros fr H. by apply elem_of_nil in H.
  - constructor.
Qed.

Lemma exec_wellformed_frame (s : state) (l : label) (fr : frame) :
  wellformed s -> admissible s l = true ->
  fr ∈ inflight s ->
  (forall i o, l = Settle i o -> fr ∈ delete i (inflight s)) ->
  exists j, jobs (exec l s) !! frame_jobId fr = Some j
            /\ Job.message j = None
            /\ ((Job.progress j = 10%Z /\ Job.status j = VString "uploading")
                \/ Job.progress j = 100%Z).
Proof.
  intros Hw Ha Hfr Hdel.
  destruct (wellformed_frames s Hw fr Hfr) as (j & Hj & Hmsg & Hpr).
  destruct (exec_effect s l (frame_jobId fr) Ha)
    as [ | now req path Hl Hcsv Hm Hnone _
         | now req path Hl Hcsv Hm Hnone _
         | i fr0 path url j0 Hl Hi Hk Hj0
         | i o fr0 msg j0 Hl Ho Hi Hk Hj0
         | b j0 Hl Ht Hk Hj0 ].
  - eauto.
  - congruence.
  - congruence.
  - exfalso.
    apply (nodup_delete_other frame_jobId (inflight s) i fr0 fr);
      [apply (wellformed_nodup s Hw) | done | by eapply Hdel | done].
  - exfalso.
    apply (nodup_delete_other frame_jobId (inflight s) i fr0 fr);
      [apply (wellformed_nodup s Hw) | done | by eapply Hdel | done].
  - assert (j0 = j) as -> by congruence.
    eexists. split; [done|]. simpl. split; [done | by right].
Qed.

Lemma exec_wellformed (s : state) (l : label) :
  wellformed s -> admissible s l = true -> wellformed (exec l s).
Proof.
  intros Hw Ha. split.
  - (* the records *)
    intros k j' Hj'. effect_cases s l k Ha Hj'.
    + apply (wellformed_jobs s Hw). congruence.
    + injection Hoj as <-. unfold shaped. simpl.
      split; [done|]. split; [done|]. left. auto.
    + injection Hoj as <-. unfold shaped. simpl.
      split; [done|]. split; [done|]. left.
      split; [done|]. split; [done|]. right. split; [done | by eexists].
    + injection Hoj as <-.
      destruct (wellformed_jobs s Hw k j0 Hj0) as (Hid & Hmail & _).
      destruct (wellformed_frames s Hw fr0) as (j1 & Hj1 & Hmsg & _);
        [by eapply list_elem_of_lookup_2|].
      assert (j1 = j0) as -> by congruence.
      unfold shaped. simpl. split; [done|]. split; [done|]. right. left. auto.
    + injection Hoj as <-.
      destruct (wellformed_jobs s Hw k j0 Hj0) as (Hid & Hmail & Hshape).
      unfold shaped. simpl. split; [done|]. split; [done|].
      destruct Hshape as [(Hp & Hr & _) | [(Hp & _) | (Hp & Hr)]].
      * left. split; [done|]. split; [done|]. right.
        split; [done | by eexists].
      * destruct (wellformed_frames s Hw fr0) as (j1 & Hj1 & _ & Hpr);
          [by eapply list_elem_of_lookup_2|].
        assert (j1 = j0) as -> by congruence.
        destruct Hpr as [[Hp' _] | Hp']; lia.
      * right. right. auto.
    + injection Hoj as <-.
      destruct (wellformed_jobs s Hw k j0 Hj0) as (Hid & Hmail & _).
      unfold shaped. simpl. split; [done|]. split; [done|].
      right. right. split; [done | by eexists].
  - (* the suspended handlers *)
    intros fr. rewrite exec_inflight.
    destruct l as [name | jobId now req | i o | b | q];
      try (intros Hfr; apply (exec_wellformed_frame s _ fr Hw Ha Hfr);
           intros; discriminate).
    + destruct (Request.csv req) as [path|] eqn:Hcsv;
        [|intros Hfr; apply (exec_wellformed_frame s _ fr Hw Ha Hfr);
          intros; discriminate].
      destruct (truthy (Request.email req)) eqn:Hm; simpl;
        [|intros Hfr; apply (exec_wellformed_frame s _ fr Hw Ha Hfr);
          intros; discriminate].
      destruct (bool_decide (path ∈ disk s)) eqn:Hd;
        [|intros Hfr; apply (exec_wellformed_frame s _ fr Hw Ha Hfr);
          intros; discriminate].
      intros [Hfr|Hfr]%elem_of_app.
      * apply (exec_wellformed_frame s _ fr Hw Ha Hfr). intros; discriminate.
      * apply list_elem_of_singleton in Hfr. subst fr.
        apply bool_decide_eq_true in Hd.
        destruct (upload_accepted jobId now req s path Hcsv Hm Hd) as [-> _].
        simpl. rewrite lookup_insert_eq. eexists. split; [done|]. simpl. auto.
    + intros Hfr.
      apply (exec_wellformed_frame s _ fr Hw Ha
               (list_elem_of_delete_inv _ _ _ Hfr)).
      intros i' o' [= <- <-]. done.
  - (* one handler per job *)
    rewrite exec_inflight.
    destruct l as [name | jobId now req | i o | b | q];
      try apply (wellformed_nodup s Hw).
    + destruct (Request.csv req) as [path|]; [|apply (wellformed_nodup s Hw)].
      destruct (truthy (Request.email req) && bool_decide (path ∈ disk s));
        [|apply (wellformed_nodup s Hw)].
      rewrite fmap_app. apply NoDup_app. split; [apply (wellformed_nodup s Hw)|].
      split; [|apply NoDup_singleton].
      intros k Hk Hk'. apply list_elem_of_singleton in Hk'. simpl in Hk'.
      subst k. apply list_elem_of_fmap_1 in Hk as (fr & Heq & Hfr).
      destruct (wellformed_frames s Hw fr Hfr) as (j & Hj & _).
      apply admissible_upload in Ha as (_ & Hfresh & _). congruence.
    + rewrite list_fmap_delete.
      apply (sublist_NoDup _ _ (wellformed_nodup s Hw)), sublist_delete.
Qed.

Lemma run_wellformed
  (e : gmap string string) (d : gset string) (ls : list label) (s : state) :
  run ls (boot e d) = Some s -> wellformed s.
Proof.
  apply (run_invariant wellformed).
  - intros s0 l. apply exec_wellformed.
  - apply boot_wellformed.
Qed.

(** X3. In every run, correct operation or not, a record of the registry is
    stored under its own [id], has a truthy [email], and has one of three
    shapes: progress 10 with no result, in ["uploading"] without a message or
    in ["error"] with one; progress 40 in ["training"] without a message; or
    progress 100 with a result. *)
Theorem records_are_shaped
  (e : gmap string string) (d : gset string) (ls : list label) (s : state)
  (k : string) (j : Job.t) :
  run ls (boot e d) = Some s ->
  jobs s !! k = Some j ->
  shaped k j.
Proof.
  intros Hrun. apply (wellformed_jobs s (run_wellformed e d ls s Hrun)).
Qed.

Lemma records_are_shaped_witness :
  shaped demo_id (set_callback demo_failed demo_job).
Proof.
  apply (records_are_shaped ∅ ∅ (demo_run ++ [Callback demo_failed])%list
           (exec (Callback demo_failed) demo_state));
    vm_compute; reflexivity.
Defined.

(** ** Status queries along an upload *)





(** ** What the upload handler sends and removes *)

Lemma getenv_nonempty (s : state) (name fallback : string) :
  fallback <> "" -> getenv s name fallback <> "".
Proof.
  intros H. unfold getenv. destruct (env s !! name) as [v|]; [|done].
  destruct (String.eqb_spec v ""); done.
Qed.

Lemma upload_catch_triggers (jobId msg : string) (s : state) :
  triggers (upload_catch jobId msg s).1.2 = [].
Proof. unfold upload_catch. by destruct (jobs_get s jobId). Qed.

(** X5. The workflow webhook is called exactly once per upload, and only
    after the content store has accepted the file: the continuation of a
    successful store call sends one trigger, carrying the public URL the
    store returned, the address and the job id of the upload and a callback
    URL, neither URL being empty; a failed store call sends none, and neither
    does the handler before its [await]. *)
Theorem trigger_sent_once_on_success
  (fr : frame) (o : store_outcome) (s : state) (a : Job.t) :
  jobs s !! frame_jobId fr = Some a ->
  triggers (upload_resume fr o s).1.2
  = match o with
    | Stored _ publicUrl =>
        [(n8nUploadUrl s,
          Trigger publicUrl (frame_email fr) (frame_jobId fr)
            (n8nCallbackUrl s))]
    | _ => []
    end
  /\ n8nUploadUrl s <> "" /\ n8nCallbackUrl s <> ""
  /\ (forall jobId now req s0, triggers (upload jobId now req s0).1.2 = []).
Proof.
  intros Ha. split; [|split; [|split]].
  - destruct o as [path url|m|m]; simpl;
      try apply upload_catch_triggers.
    rewrite (jobs_get_own _ _ _ Ha), (assign_own _ _ _ _ Ha). simpl.
    by destruct (bool_decide _).
  - by apply getenv_nonempty.
  - by apply getenv_nonempty.
  - intros jobId now req s0. unfold upload.
    destruct (Request.csv req) as [path|]; [|done].
    destruct (truthy (Request.email req)); simpl; [|done].
    destruct (bool_decide _); simpl; [done|].
    match goal with
    | |- context [upload_catch ?x ?m ?t] =>
        pose proof (upload_catch_triggers x m t) as Hc;
        destruct (upload_catch x m t) as [[s2 evs] r]
    end.
    done.
Qed.

Lemma trigger_sent_once_on_success_witness :
  triggers
    (upload_resume (Frame demo_id "uploads/data.csv" (VString "ada@example.org"))
       (Stored "uploads/1700000000000_data.csv" "https://store/x.csv")
       (State {[ demo_id := initial_job demo_id (VString "ada@example.org") ]}
          {[ "uploads/data.csv" ]} [] [] ∅)).1.2
  = [("https://n8n-r920.onrender.com/webhook-test/ml-upload",
      Trigger "https://store/x.csv" (VString "ada@example.org") demo_id
        "https://auto-ml-train-1.onrender.com/api/callback")].
Proof.
  destruct (trigger_sent_once_on_success
              (Frame demo_id "uploads/data.csv" (VString "ada@example.org"))
              (Stored "uploads/1700000000000_data.csv" "https://store/x.csv")
              (State {[ demo_id
                        := initial_job demo_id (VString "ada@example.org") ]}
                 {[ "uploads/data.csv" ]} [] [] ∅)
              (initial_job demo_id (VString "ada@example.org")))
    as (H & _); [vm_compute; reflexivity|].
  exact H.
Defined.

Lemma upload_disk (jobId now : string) (req : Request.t) (s : state) :
  disk (upload jobId now req s).1.1 = disk s.
Proof.
  unfold upload. destruct (Request.csv req) as [path|]; [|done].
  destruct (truthy (Request.email req)); simpl; [|done].
  destruct (bool_decide _); simpl; [done|].
  match goal with
  | |- context [upload_catch ?x ?m ?t] =>
      pose proof (upload_catch_disk x m t) as Hc;
      destruct (upload_catch x m t) as [[s2 evs] r]
  end.
  done.
Qed.

Lemma assign_disk (k : string) (f : Job.t -> Job.t) (s : state) :
  disk (assign k f s) = disk s.
Proof. unfold assign. by destruct (jobs_get s k). Qed.

Lemma callback_disk (b : Body.t) (s : state) :
  disk (callback b s).1 = disk s.
Proof.
  unfold callback. destruct (truthy _); [|done].
  destruct (to_property_key _) as [k|]; [|done].
  destruct (jobs_get s k); simpl; try done; apply assign_disk.
Qed.

Lemma upload_resume_stored_disk
  (fr : frame) (path url : string) (s : state) :
  disk (upload_resume fr (Stored path url) s).1.1 = disk s
  \/ disk (upload_resume fr (Stored path url) s).1.1
     = disk s ∖ {[frame_csvPath fr]}.
Proof.
  unfold upload_resume.
  destruct (jobs_get s (frame_jobId fr)) eqn:Hg.
  - rewrite assign_disk. destruct (bool_decide _); simpl;
      rewrite ?assign_disk; auto.
  - rewrite assign_disk. destruct (bool_decide _); simpl;
      rewrite ?assign_disk; auto.
  - match goal with
    | |- context [upload_catch ?x ?m ?t] =>
        pose proof (upload_catch_disk x m t) as Hc;
        destruct (upload_catch x m t) as [[s2 evs] r]
    end.
    simpl in *. auto.
Qed.

(** X6. A file under [uploads/] is removed by one step only: the
    continuation of a successful store call of an upload that read that very
    path. Callbacks, status queries, new uploads and failed store calls
    remove nothing. *)
Theorem only_successful_upload_unlinks
  (s : state) (l : label) (p : string) :
  p ∈ disk s ->
  p ∉ disk (exec l s) ->
  exists i fr path url,
    l = Settle i (Stored path url)
    /\ inflight s !! i = Some fr
    /\ frame_csvPath fr = p.
Proof.
  intros Hin Hout.
  destruct l as [name | jobId now req | i o | b | q]; simpl in Hout.
  - destruct Hout. apply elem_of_union. by right.
  - by rewrite upload_disk in Hout.
  - destruct (inflight s !! i) as [fr|] eqn:Hfr; [|done].
    destruct o as [path url|m|m].
    + exists i, fr, path, url. split; [done|]. split; [done|].
      destruct (upload_resume_stored_disk fr path url
                  (set_inflight (delete i) s)) as [Hd|Hd];
        rewrite Hd in Hout; simpl in Hout; [done|].
      destruct (decide (frame_csvPath fr = p)) as [|Hne]; [done|].
      destruct Hout. apply elem_of_difference. split; [done|].
      intros Hp%elem_of_singleton. congruence.
    + rewrite upload_resume_failure_disk in Hout by congruence. done.
    + rewrite upload_resume_failure_disk in Hout by congruence. done.
  - by rewrite callback_disk in Hout.
  - done.
Qed.

Lemma only_successful_upload_unlinks_witness :
  exists i fr path url,
    Settle 0 (Stored "uploads/1700000000000_data.csv" "https://store/x.csv")
    = Settle i (Stored path url)
    /\ inflight (exec (Upload demo_id "1700000000000" demo_req)
                   (exec (Arrive "data.csv") (boot ∅ ∅))) !! i = Some fr
    /\ frame_csvPath fr = "uploads/data.csv".
Proof.
  apply (only_successful_upload_unlinks
           (exec (Upload demo_id "1700000000000" demo_req)
              (exec (Arrive "data.csv") (boot ∅ ∅)))
           (Settle 0 (Stored "uploads/1700000000000_data.csv"
                        "https://store/x.csv"))
           "uploads/data.csv").
  - apply (bool_decide_unpack _). vm_compute. exact I.
  - apply (bool_decide_unpack _). vm_compute. exact I.
Defined.

(** ** Failures of the upload handler *)

Lemma upload_unreadable
  (jobId now : string) (req : Request.t) (s : state) (path : string) :
  Request.csv req = Some path ->
  truthy (Request.email req) = true ->
  path ∉ disk s ->
  let r := Json 500 (BUploadFailed ("Upload process failed: " ++ enoent path))
  in
  upload jobId now req s
  = (set_jobs (insert jobId
                 (set_error (enoent path)
                    (initial_job jobId (Request.email req))))
       (set_jobs (insert jobId (initial_job jobId (Request.email req))) s),
     [JobCreated jobId; JobUpdated jobId; Responded r],
     Answered r).
Proof.
  intros Hcsv Hm Hd. unfold upload. rewrite Hcsv, Hm. simpl.
  rewrite bool_decide_eq_false_2 by done.
  unfold upload_catch, assign, jobs_get. simpl.
  by rewrite lookup_insert_eq.
Qed.

(** X7. When the file multer stored is no longer there as the upload handler
    starts, the handler still creates the job record, sets it to ["error"]
    with the ENOENT message at progress 10, answers 500 with that message,
    and neither calls the content store nor stays suspended. *)
Theorem upload_without_local_file
  (jobId now : string) (req : Request.t) (s : state) (path : string) :
  Request.csv req = Some path ->
  truthy (Request.email req) = true ->
  path ∉ disk s ->
  (upload jobId now req s).2
  = Answered (Json 500 (BUploadFailed
                ("Upload process failed: " ++ enoent path)))
  /\ jobs (upload jobId now req s).1.1 !! jobId
     = Some (Job.mk jobId (VString "error") 10 (Request.email req)
               (Some (enoent path)) None)
  /\ filter (fun ev => is_store_call ev = true) (upload jobId now req s).1.2
     = []
  /\ inflight (upload jobId now req s).1.1 = inflight s.
Proof.
  intros Hcsv Hm Hd.
  rewrite (upload_unreadable jobId now req s path Hcsv Hm Hd). simpl.
  rewrite lookup_insert_eq. repeat split; reflexivity.
Qed.

Lemma upload_without_local_file_witness :
  (upload demo_id "1700000000000" demo_req (boot ∅ ∅)).2
  = Answered (Json 500 (BUploadFailed
                ("Upload process failed: " ++ enoent "uploads/data.csv"))).
Proof.
  destruct (upload_without_local_file demo_id "1700000000000" demo_req
              (boot ∅ ∅) "uploads/data.csv") as (H & _);
    [reflexivity | reflexivity | apply not_elem_of_empty |].
  exact H.
Defined.

Lemma csv_error_message_nonempty (m : option string) :
  csv_error_message m <> "".
Proof.
  unfold csv_error_message. destruct m as [t|]; [|done].
  destruct (String.eqb_spec t ""); done.
Qed.

(** X8. When the content store refuses the file, the job keeps its id,
    address, progress and result, moves to ["error"] with the message
    ["Supabase upload failed: "] followed by the store's message, or by
    ["Unknown error"] when the store gave none or an empty one, and the
    caller is answered 500 with that text; no record other than this job's
    changes. *)
Theorem refused_store_marks_error
  (fr : frame) (m : option string) (s : state) (a : Job.t) :
  jobs s !! frame_jobId fr = Some a ->
  let msg := "Supabase upload failed: " ++ csv_error_message m in
  upload_resume fr (Refused m) s
  = (set_jobs (insert (frame_jobId fr)
                 (Job.mk (Job.id a) (VString "error") (Job.progress a)
                    (Job.email a) (Some msg) (Job.result a))) s,
     [JobUpdated (frame_jobId fr);
      Responded (Json 500 (BUploadFailed ("Upload process failed: " ++ msg)))],
     Json 500 (BUploadFailed ("Upload process failed: " ++ msg)))
  /\ csv_error_message m <> ""
  /\ (m = None \/ m = Some "" -> csv_error_message m = "Unknown error").
Proof.
  intros Ha msg. split; [|split].
  - unfold upload_resume, upload_catch.
    by rewrite (jobs_get_own _ _ _ Ha), (assign_own _ _ _ _ Ha).
  - apply csv_error_message_nonempty.
  - by intros [-> | ->].
Qed.

Lemma refused_store_marks_error_witness :
  (upload_resume (Frame demo_id "uploads/data.csv" (VString "ada@example.org"))
     (Refused None) demo_state).2
  = Json 500 (BUploadFailed
      "Upload process failed: Supabase upload failed: Unknown error").
Proof.
  destruct (refused_store_marks_error
              (Frame demo_id "uploads/data.csv" (VString "ada@example.org"))
              None demo_state demo_job) as (H & _); [reflexivity|].
  rewrite H. reflexivity.
Defined.

(** ** Answers of the callback handler *)

(** X9. The callback handler answers 500 exactly when the job id of the body
    is truthy and cannot be turned into a property key (an object, possibly
    inside arrays, that has a [toString] property of its own); it then leaves
    the state as it was. In every other case it answers success; a falsy job
    id (absent, [null], [false], [0], the empty text) changes nothing, and a
    job id that is not an array or an object never leads to 500. *)
Theorem callback_answers (b : Body.t) (s : state) :
  ((callback b s).2 = callback_failed
   <-> truthy (Body.jobId b) = true
       /\ to_property_key (Body.jobId b) = None)
  /\ ((callback b s).2 = callback_failed \/ (callback b s).2 = callback_ok)
  /\ ((callback b s).2 = callback_failed -> (callback b s).1 = s)
  /\ (truthy (Body.jobId b) = false -> callback b s = (s, callback_ok))
  /\ (scalar (Body.jobId b) = true -> (callback b s).2 = callback_ok).
Proof.
  unfold callback.
  destruct (truthy (Body.jobId b)) eqn:Ht.
  - destruct (to_property_key (Body.jobId b)) as [k|] eqn:Hk.
    + assert ((match jobs_get s k with
               | Missing => (s, callback_ok)
               | _ => (assign k (set_callback b) s, callback_ok)
               end).2 = callback_ok) as Hok by by destruct (jobs_get s k).
      rewrite Hok. repeat split; try done; auto.
      * by intros [_ ?].
    + simpl. repeat split; auto; [done|].
      intros Hs. unfold to_property_key in Hk.
      destruct (Body.jobId b) as [| |[|]| | | |]; simpl in *; done.
  - simpl. repeat split; try done; auto.
    by intros [? _].
Qed.

(** ** The name given to the content store *)

Lemma list_ascii_of_string_app (a b : string) :
  list_ascii_of_string (a ++ b)
  = (list_ascii_of_string a ++ list_ascii_of_string b)%list.
Proof. induction a as [|c a IH]; simpl; [done | by rewrite IH]. Qed.

Lemma upto_slash_app (l r : list ascii) :
  forallb (fun c => negb (is_slash c)) l = true ->
  upto_slash (l ++ "/"%char :: r) = l.
Proof.
  induction l as [|c l IH]; simpl; [done|].
  intros H. apply andb_prop in H as [Hc Hl].
  destruct (is_slash c); [done|]. by rewrite IH.
Qed.

Lemma drop_slashes_id (l : list ascii) :
  match l with c :: _ => is_slash c = false | [] => True end ->
  drop_slashes l = l.
Proof. destruct l as [|c l]; simpl; [done|]. by intros ->. Qed.

(** [path.basename] of a file name put in a directory is the file name. *)
Lemma basename_join (dir name : string) :
  name <> "" -> no_slash name = true ->
  basename (dir ++ "/" ++ name) = name.
Proof.
  intros Hne Hns. unfold basename, no_slash in *.
  rewrite !list_ascii_of_string_app. simpl.
  rewrite rev_app_distr. simpl.
  set (n := list_ascii_of_string name) in *.
  assert (forallb (fun c => negb (is_slash c)) (rev n) = true) as Hrev.
  { apply forallb_forall. intros c Hc. apply in_rev in Hc.
    by apply (proj1 (forallb_forall _ _) Hns). }
  rewrite <- app_assoc. simpl.
  rewrite drop_slashes_id.
  - rewrite upto_slash_app by done. rewrite rev_involutive.
    apply string_of_list_ascii_of_string.
  - destruct (rev n) as [|c r] eqn:Hr.
    + apply (f_equal (@rev ascii)) in Hr. rewrite rev_involutive in Hr.
      simpl in Hr. subst n. destruct name; [done | discriminate].
    + simpl in Hrev. apply andb_prop in Hrev as [Hc _].
      by apply negb_true_iff.
Qed.

(** X10. For a file that multer stored under its original name (not empty,
    no separator in it), the upload handler asks the content store to keep
    it as [uploads/<Date.now()>_<original name>], after writing the job
    record and reading the local copy. *)
Theorem store_name_of_upload
  (jobId now name : string) (email : value) (s : state) :
  name <> "" -> no_slash name = true -> truthy email = true ->
  (upload jobId now (Request.mk (Some (UPLOAD_DIR ++ "/" ++ name)) email)
     (exec (Arrive name) s)).1.2
  = [JobCreated jobId; FileRead (UPLOAD_DIR ++ "/" ++ name);
     StoreUpload ("uploads/" ++ now ++ "_" ++ name)].
Proof.
  intros Hne Hns Hm. unfold upload.
  cbn [Request.csv Request.email]. rewrite Hm. cbn [negb].
  rewrite bool_decide_eq_true_2.
  - cbv zeta. rewrite (basename_join UPLOAD_DIR name Hne Hns). reflexivity.
  - cbn [exec set_jobs set_disk disk]. apply elem_of_union. left.
    by apply elem_of_singleton.
Qed.

Lemma store_name_of_upload_witness :
  (upload demo_id "1700000000000" demo_req
     (exec (Arrive "data.csv") (boot ∅ ∅))).1.2
  = [JobCreated demo_id; FileRead "uploads/data.csv";
     StoreUpload "uploads/1700000000000_data.csv"].
Proof.
  apply (store_name_of_upload demo_id "1700000000000" "data.csv"
           (VString "ada@example.org") (boot ∅ ∅));
    [discriminate | reflexivity | reflexivity].
Defined.

(** ** The accepted upload, end to end *)



(** ** The upload form *)

Lemma endsWith_file_change (files : list string) (u : UI.t) :
  (forall name, UI.csv u = Some name -> endsWith name ".csv" = true) ->
  forall name,
    UI.csv (handleFileChange files u).1 = Some name ->
    endsWith name ".csv" = true.
Proof.
  intros Hu name. unfold handleFileChange.
  destruct files as [|f files]; simpl; [apply Hu|].
  destruct (endsWith f ".csv") eqn:Hf; simpl; [|apply Hu].
  by intros [= <-].
Qed.

Lemma shows_form_status (u : UI.t) :
  shows_form u = true <-> UI.status u = "idle" \/ UI.status u = "error".
Proof.
  unfold shows_form. rewrite orb_true_iff, !String.eqb_eq. tauto.
Qed.

Lemma form_view (u : UI.t) (n : nat) :
  ui_consistent (u, n) -> shows_form u = true ->
  n = 0%nat /\ UI.result u = None
  /\ ((UI.status u = "idle" /\ UI.progress u = 0%Z)
      \/ (UI.status u = "error" /\ UI.progress u = 30%Z)).
Proof.
  intros (_ & _ & Hst) Hf. apply shows_form_status in Hf.
  destruct Hst as [(H & ? & ? & ?) | [(H & _) | [(H & _) | (H & ? & ? & ?)]]];
    try (destruct Hf; congruence); auto.
Qed.

Lemma ui_exec_consistent (ev : ui_event) (p p' : UI.t * nat) :
  ui_consistent p -> ui_exec ev p = Some p' -> ui_consistent p'.
Proof.
  destruct p as [u n]. intros Hp Hex.
  pose proof Hp as (Hid & Hcsv & Hst).
  destruct ev as [files | v | | r |]; simpl in Hex.
  - destruct (shows_form u) eqn:Hf; [|done]. simplify_eq.
    destruct (form_view u n Hp Hf) as (-> & Hres & Hview).
    pose proof (endsWith_file_change files u Hcsv) as Hcsv'.
    assert (UI.jobId (handleFileChange files u).1 = UI.jobId u
            /\ UI.status (handleFileChange files u).1 = UI.status u
            /\ UI.progress (handleFileChange files u).1 = UI.progress u
            /\ UI.result (handleFileChange files u).1 = UI.result u)
      as (E1 & E2 & E3 & E4).
    { unfold handleFileChange. destruct files as [|f files]; [done|].
      by destruct (endsWith f ".csv"). }
    split; [congruence|]. split; [exact Hcsv'|].
    rewrite E2, E3, E4.
    destruct Hview as [[? ?] | [? ?]]; [left | right; right; right]; auto.
  - destruct (shows_form u) eqn:Hf; [|done]. simplify_eq.
    destruct (form_view u n Hp Hf) as (-> & Hres & Hview).
    simpl. split; [done|]. split; [done|].
    destruct Hview as [[? ?] | [? ?]]; [left | right; right; right]; auto.
  - destruct (shows_form u) eqn:Hf; [|done].
    destruct (form_view u n Hp Hf) as (-> & Hres & Hview).
    unfold handleSubmit in Hex.
    destruct (UI.csv u) as [file|] eqn:Hfile; [|by simplify_eq].
    destruct (String.eqb_spec (UI.email u) "") as [He|He];
      simplify_eq; [done|].
    simpl. split; [done|]. split; [by intros name [= <-]; apply Hcsv|].
    right. left. repeat split; try done; by eexists.
  - destruct n as [|n']; [done|]. simplify_eq.
    destruct Hst as [(_ & _ & _ & Hn) | [(Hs & Hpr & Hr & Hn & _)
                    | [(_ & _ & _ & Hn) | (_ & _ & _ & Hn)]]];
      try discriminate.
    injection Hn as ->.
    destruct r as [|rm m]; simpl; (split; [done|]; split; [done|]).
    + right. right. left. by repeat split.
    + right. right. right. by repeat split.
  - destruct (shows_result u) eqn:Hr; [|done]. simplify_eq.
    simpl. split; [done|]. split; [done|].
    left. repeat split; try done.
    unfold shows_result in Hr. apply andb_prop in Hr as [Hc _].
    apply String.eqb_eq in Hc.
    destruct Hst as [(H & _) | [(H & _) | [(_ & _ & _ & Hn) | (H & _)]]];
      congruence.
Qed.

Lemma ui_run_consistent (evs : list ui_event) :
  forall p p', ui_consistent p -> ui_run evs p = Some p' -> ui_consistent p'.
Proof.
  induction evs as [|ev evs IH]; intros p p' Hp Hrun; simpl in Hrun.
  - by simplify_eq.
  - destruct (ui_exec ev p) as [pm|] eqn:Hex; [|done].
    apply (IH pm p'); [by eapply ui_exec_consistent | done].
Qed.

Lemma UploadDataset_consistent : ui_consistent (UploadDataset, 0%nat).
Proof.
  simpl. split; [done|]. split; [done|]. left. by repeat split.
Qed.

(** X12. Whatever the user does with the form and however the posted
    requests settle, the component is in one of four states: ["idle"] at
    progress 0, ["uploading"] at progress 30 with one request in flight,
    ["completed"] at progress 100 with the fixed result card, or ["error"]
    at progress 30; at most one request is in flight; [jobId] stays [null];
    and the status ["training"], with its text, is never shown. *)
Theorem form_states
  (evs : list ui_event) (u : UI.t) (n : nat) :
  ui_run evs (UploadDataset, 0%nat) = Some (u, n) ->
  ui_consistent (u, n)
  /\ (n <= 1)%nat
  /\ UI.status u <> "training"
  /\ status_text u <> "Processing on Cloud GPU...".
Proof.
  intros Hrun.
  pose proof (ui_run_consistent evs _ _ UploadDataset_consistent Hrun) as Hc.
  split; [done|].
  destruct Hc as (_ & _ & Hst). unfold status_text.
  destruct Hst as [(H & _ & _ & ->) | [(H & _ & _ & -> & _)
                  | [(H & _ & _ & ->) | (H & _ & _ & ->)]]];
    rewrite H; simpl; repeat split; (lia || discriminate).
Qed.

Lemma form_states_witness :
  ui_consistent
    (UI.mk (Some "data.csv") "ada@example.org" "completed" 100 None
       (Some async_success) (VString ""), 0%nat).
Proof.
  destruct (form_states
              [FileChange ["data.csv"]; EmailChange "ada@example.org"; Submit;
               Settled Fulfilled]
              (UI.mk (Some "data.csv") "ada@example.org" "completed" 100 None
                 (Some async_success) (VString "")) 0%nat) as (H & _);
    [reflexivity|].
  exact H.
Defined.

(** X13. A request the form posts always carries a file whose name ends in
    [.csv] and an address that is not empty, is posted only while no other
    request of the form is in flight, and passes the validation of the
    upload handler of the server. *)
Theorem form_posts_valid_requests
  (evs : list ui_event) (u u' : UI.t) (n : nat) (f : formData) :
  ui_run evs (UploadDataset, 0%nat) = Some (u, n) ->
  shows_form u = true ->
  handleSubmit u = (u', Some f) ->
  endsWith (form_csv f) ".csv" = true
  /\ form_email f <> ""
  /\ n = 0%nat
  /\ valid (client_request f) = true.
Proof.
  intros Hrun Hf Hs.
  pose proof (ui_run_consistent evs _ _ UploadDataset_consistent Hrun)
    as (_ & Hcsv & Hst).
  apply shows_form_status in Hf.
  unfold handleSubmit in Hs.
  destruct (UI.csv u) as [file|] eqn:Hfile; [|by simplify_eq].
  destruct (String.eqb_spec (UI.email u) "") as [He|He]; simplify_eq.
  simpl. split; [by apply Hcsv|]. split; [done|]. split.
  - destruct Hst as [H | [(H & _) | [(H & _) | H]]];
      [tauto | destruct Hf; congruence | destruct Hf; congruence | tauto].
  - unfold valid. simpl. by destruct (String.eqb_spec (UI.email u) "").
Qed.

Lemma form_posts_valid_requests_witness :
  valid (client_request (FormData "data.csv" "ada@example.org")) = true.
Proof.
  destruct (form_posts_valid_requests
              [FileChange ["data.csv"]; EmailChange "ada@example.org"]
              (UI.mk (Some "data.csv") "ada@example.org" "idle" 0 None None
                 (VString ""))
              (UI.mk (Some "data.csv") "ada@example.org" "uploading" 30 None
                 None (VString ""))
              0%nat (FormData "data.csv" "ada@example.org"))
    as (_ & _ & _ & H); [reflexivity | reflexivity | reflexivity |].
  exact H.
Defined.

(** ** The form and the server together *)

Lemma failed_text_truthy (m text : string) :
  js_or (VString ("Upload process failed: " ++ m)) (VString text)
  = VString ("Upload process failed: " ++ m).
Proof. reflexivity. Qed.

(** X14. When the server sends the response of an upload that passed
    validation, the form shows one of two things. On status 200 it shows
    ["completed"] at progress 100, while the job on the server is in
    ["training"] at progress 40: the form reports completion of the upload,
    not of the training. On status 500 it shows ["error"] with the text of
    the server, which starts with ["Upload process failed: "], and the job
    on the server is in ["error"]. No other response occurs. *)
Theorem form_shows_the_answer
  (e : gmap string string) (d : gset string) (ls : list label) (s : state)
  (l : label) (jobId : string) (r : response) (text : string) (u : UI.t) :
  run ls (boot e d) = Some s ->
  admissible s l = true ->
  upload_response l s = Some (jobId, r) ->
  let u' := handleSubmit_resume (axios_of r text) u in
  exists a,
    jobs (exec l s) !! jobId = Some a
    /\ ((code r = 200%Z
         /\ UI.status u' = "completed" /\ UI.progress u' = 100%Z
         /\ UI.result u' = Some async_success
         /\ Job.status a = VString "training" /\ Job.progress a = 40%Z)
        \/ (code r = 500%Z
            /\ UI.status u' = "error"
            /\ (exists m,
                  UI.errorMsg u'
                  = VString ("Upload process failed: " ++ m)
                  /\ Job.message a = Some m)
            /\ Job.status a = VString "error")).
Proof.
  intros Hrun Ha Hresp u'. unfold u'. clear u'.
  destruct l as [name | id now req | i o | b | q]; simpl in Hresp; try done.
  - destruct ((upload id now req s).2) as [r'|] eqn:Hout; [|done].
    destruct (valid req) eqn:Hv; [|done]. simplify_eq.
    unfold valid in Hv. apply andb_prop in Hv as [H1 H2].
    apply bool_decide_eq_true in H1 as [path Hcsv].
    destruct (decide (path ∈ disk s)) as [Hd|Hd].
    + destruct (upload_accepted jobId now req s path Hcsv H2 Hd) as [_ Hw].
      congruence.
    + unfold exec.
      rewrite (upload_unreadable jobId now req s path Hcsv H2 Hd) in *.
      simpl in *. simplify_eq.
      rewrite lookup_insert_eq. eexists. split; [done|]. right. simpl.
      split; [done|]. split; [done|]. split; [|done]. by eexists.
  - destruct (inflight s !! i) as [fr|] eqn:Hfr; [|done]. simplify_eq.
    destruct (run_frames_have_records e d ls s Hrun fr) as [a Hj];
      [by eapply list_elem_of_lookup_2|].
    simpl. rewrite Hfr.
    assert (jobs (set_inflight (delete i) s) !! frame_jobId fr = Some a)
      as Hj' by done.
    unfold upload_resume, upload_catch.
    destruct o as [path url|m|m];
      rewrite (jobs_get_own _ _ _ Hj'), (assign_own _ _ _ _ Hj').
    + exists (set_training a). split.
      * destruct (bool_decide _); simpl; apply lookup_insert_eq.
      * left. simpl. by repeat split.
    + eexists. split; [simpl; apply lookup_insert_eq|]. right. simpl.
      split; [done|]. split; [done|]. split; [|done]. by eexists.
    + eexists. split; [simpl; apply lookup_insert_eq|]. right. simpl.
      split; [done|]. split; [done|]. split; [|done]. by eexists.
Qed.

Lemma form_shows_the_answer_witness :
  exists a,
    jobs (exec (Settle 0 (Stored "uploads/1700000000000_data.csv"
                            "https://store/x.csv"))
            (exec (Upload demo_id "1700000000000" demo_req)
               (exec (Arrive "data.csv") (boot ∅ ∅)))) !! demo_id = Some a.
Proof.
  destruct (form_shows_the_answer ∅ ∅
              [Arrive "data.csv"; Upload demo_id "1700000000000" demo_req]
              (exec (Upload demo_id "1700000000000" demo_req)
                 (exec (Arrive "data.csv") (boot ∅ ∅)))
              (Settle 0 (Stored "uploads/1700000000000_data.csv"
                           "https://store/x.csv"))
              demo_id (Json 200 (BUploaded demo_id)) "" UploadDataset)
    as (a & H & _);
    [vm_compute; reflexivity | vm_compute; reflexivity
    | vm_compute; reflexivity |].
  exists a. exact H.
Defined.

(** ** Job ids that are not texts *)

(** X15. The callback handler uses the job id of the body as a property key:
    a one-element array holding the text [k], and the number whose text is
    [k], name the same job as the text [k] itself. *)
Theorem callback_coerces_job_id
  (k : string) (st dm m : value) (s : state) :
  k <> "" ->
  callback (Body.mk (VArray [VString k]) st dm m) s
  = callback (Body.mk (VString k) st dm m) s
  /\ (k <> "0" -> k <> "NaN" ->
      callback (Body.mk (VNumber k) st dm m) s
      = callback (Body.mk (VString k) st dm m) s).
Proof.
  intros Hk. unfold callback. simpl.
  destruct (String.eqb_spec k "") as [|_]; [done|]. simpl. split; [done|].
  intros H0 Hn.
  destruct (String.eqb_spec k "0") as [|_]; [done|].
  destruct (String.eqb_spec k "NaN") as [|_]; [done|]. done.
Qed.

Lemma callback_coerces_job_id_witness :
  callback (Body.mk (VArray [VString demo_id]) (VString "completed")
              VUndefined VUndefined) demo_state
  = callback (Body.mk (VString demo_id) (VString "completed")
                VUndefined VUndefined) demo_state.
Proof.
  destruct (callback_coerces_job_id demo_id (VString "completed") VUndefined
              VUndefined demo_state) as (H & _); [discriminate|].
  exact H.
Defined.

(** ** Result and progress under correct operation *)

Lemma exec_result_at_100 (s : state) (l : label) :
  consistent s -> wellformed s ->
  (forall k a, jobs s !! k = Some a -> is_Some (Job.result a) ->
               Job.progress a = 100%Z) ->
  admissible s l = true ->
  forall k a, jobs (exec l s) !! k = Some a -> is_Some (Job.result a) ->
              Job.progress a = 100%Z.
Proof.
  intros Hc Hw HP Ha k a Hat.
  effect_cases s l k Ha Hat; try (injection Hoj as <-); simpl.
  - apply (HP k). congruence.
  - by intros [? ?].
  - by intros [? ?].
  - intros Hres.
    destruct (consistent_frames s Hc fr0) as (j1 & Hj1 & _ & Hp);
      [by eapply list_elem_of_lookup_2|].
    assert (j1 = j0) as -> by congruence.
    destruct (wellformed_jobs s Hw k j0 Hj0)
      as (_ & _ & [(_ & Hr & _) | [(Hp' & _) | (Hp' & _)]]);
      [rewrite Hr in Hres; by destruct Hres | lia | lia].
  - by apply (HP k).
  - done.
Qed.

Lemma proper_run_result_at_100 (ls : list label) :
  forall s s',
    consistent s -> wellformed s ->
    (forall k a, jobs s !! k = Some a -> is_Some (Job.result a) ->
                 Job.progress a = 100%Z) ->
    proper_run ls s = Some s' ->
    forall k a, jobs s' !! k = Some a -> is_Some (Job.result a) ->
                Job.progress a = 100%Z.
Proof.
  induction ls as [|l ls IH]; intros s s' Hc Hw HP Hrun; simpl in Hrun.
  - by simplify_eq.
  - destruct (admissible s l) eqn:Ha; [|done].
    destruct (causal s l) eqn:Hca; [|done]. simpl in Hrun.
    apply (IH (exec l s) s');
      [by apply exec_consistent | by apply exec_wellformed
      | by apply exec_result_at_100 | done].
Qed.

(** X16. Under correct operation, a record has a result exactly when its
    progress is 100: a status query shows the outcome of the training and
    full progress together, never one without the other. *)
Theorem result_with_full_progress
  (e : gmap string string) (d : gset string) (ls : list label) (s : state)
  (k : string) (a : Job.t) :
  proper_run ls (boot e d) = Some s ->
  jobs s !! k = Some a ->
  (is_Some (Job.result a) <-> Job.progress a = 100%Z).
Proof.
  intros Hrun Hk. split.
  - apply (proper_run_result_at_100 ls (boot e d) s
             (boot_consistent e d) (boot_wellformed e d)) with (k := k);
      [|done..].
    intros k0 a0 H0. simpl in H0. by rewrite lookup_empty in H0.
  - intros Hp.
    destruct (wellformed_jobs s
                (run_wellformed e d ls s (proper_run_run ls _ _ Hrun)) k a Hk)
      as (_ & _ & [(Hp' & _) | [(Hp' & _) | (_ & Hr)]]); [lia | lia | done].
Qed.

Lemma result_with_full_progress_witness :
  is_Some (Job.result (set_callback demo_completed demo_job))
  <-> Job.progress (set_callback demo_completed demo_job) = 100%Z.
Proof.
  apply (result_with_full_progress ∅ ∅
           (demo_run ++ [Callback demo_completed])%list
           (exec (Callback demo_completed) demo_state) demo_id);
    vm_compute; reflexivity.
Defined.
